(** * watchdog-console.py: console watchdog for Gemini CLI sessions

    A shallow embedding of [src/watchdog-console.py].  Python strings are
    lists of Unicode code points, the [targets] dictionary is a [gmap] from
    process ids to records, [tracked_hwnds] is a [gset], and the calls into
    kernel32 / user32 / plyer act on an explicit [world] threaded through a
    small state-and-exception monad. *)

From Stdlib Require Import ZArith NArith List Bool Lia String Ascii.
From stdpp Require Import base gmap sets list.
Import ListNotations.

Local Open Scope Z_scope.

(** ** Python strings *)

Module Str.

(** A Python [str]: a sequence of code points. *)
Definition str := list N.

(** An ASCII literal of the source as a [str]. *)
Fixpoint lit (s : string) : str :=
  match s with
  | EmptyString => []
  | String a s' => N_of_ascii a :: lit s'
  end.

(** [s.startswith(p)]. *)
Fixpoint starts_with (p s : str) : bool :=
  match p, s with
  | [], _ => true
  | _ :: _, [] => false
  | a :: p', b :: s' => N.eqb a b && starts_with p' s'
  end.

(** [needle in hay] on strings: some suffix of [hay] starts with [needle]. *)
Fixpoint str_in (needle hay : str) : bool :=
  starts_with needle hay ||
  match hay with
  | [] => false
  | _ :: hay' => str_in needle hay'
  end.

(** [str.isspace] on one code point (CPython's [_PyUnicode_IsWhitespace]). *)
Definition isspace (c : N) : bool :=
  ((9 <=? c) && (c <=? 13) || (28 <=? c) && (c <=? 32) ||
   (c =? 133) || (c =? 160) || (c =? 5760) ||
   (8192 <=? c) && (c <=? 8202) || (c =? 8232) || (c =? 8233) ||
   (c =? 8239) || (c =? 8287) || (c =? 12288))%N.

Fixpoint lstrip (s : str) : str :=
  match s with
  | [] => []
  | c :: s' => if isspace c then lstrip s' else s
  end.

Definition rstrip (s : str) : str := rev (lstrip (rev s)).

(** [s.strip()]. *)
Definition strip (s : str) : str := rstrip (lstrip s).

(** Truth value of a possibly-[None] string: [None] and [""] are false. *)
Definition truthy (s : option str) : bool :=
  match s with
  | Some (_ :: _) => true
  | _ => false
  end.

(** A marker that neither starts nor ends with white space. *)
Definition unpadded (m : str) : bool :=
  match m with
  | [] => false
  | a :: _ => negb (isspace a) && negb (isspace (List.last m 0%N))
  end.

(** ASCII-only lower-casing; agrees with [str.lower] on ASCII text. *)
Definition ascii_lower (s : str) : str :=
  map (fun c => if ((65 <=? c) && (c <=? 90))%N then (c + 32)%N else c) s.

End Str.

Import Str.

(** The two symbols the CLI puts in its window title. *)
Definition DIAMOND : str := [9671%N].       (* U+25C7, white diamond *)
Definition STAR : str := [10022%N].         (* U+2726, black four pointed star *)

(** ** Python results: a value or a raised exception *)

Inductive exn :=
| ZeroDivisionError
| AttributeError
| KeyError
| NotifyError.

Inductive outcome (A : Type) :=
| Return (a : A)
| Raise (e : exn).
Arguments Return {A} a.
Arguments Raise {A} e.

(** ** The data model *)

(** The values stored under ['state']. *)
Inductive cli_state := Unknown | Working | AwaitingInput | HighDemand | Ready.

Definition cli_state_eqb (a b : cli_state) : bool :=
  match a, b with
  | Unknown, Unknown | Working, Working | AwaitingInput, AwaitingInput
  | HighDemand, HighDemand | Ready, Ready => true
  | _, _ => false
  end.

(** One entry of [targets]: [{ 'state': LastState, 'hwnd': ConsoleHWND }].
    A window handle is a Python value: an integer, or [None]. *)
Record target := { state : cli_state; hwnd : option Z }.

(** Truth value of a handle: [None] and [0] (NULL) are false. *)
Definition truthy_hwnd (h : option Z) : bool :=
  match h with
  | Some z => negb (z =? 0)
  | None => false
  end.

(** The three f-string messages passed to [show_notification]. *)
Inductive message :=
| ActionRequired (pid : N)
| TaskFailedHighDemand (pid : N)
| TaskFinished (pid : N).

(** What the script writes: lines of [log] and calls of [notification.notify]. *)
Inductive event :=
| LogNotification (title : str) (msg : message)
| LogNotificationFailed (e : exn)
| LogErrorChecking (pid : N) (e : exn)
| Toast (title : str) (msg : message) (app_name : str) (timeout : Z).

(** ** The platform: Windows, psutil, plyer and the Python runtime *)

(** Which console the watchdog process is attached to. *)
Inductive attachment :=
| Detached
| OwnConsole
| TargetConsole (pid : N).

(** Where [sys.stdout] / [sys.stderr] point. *)
Inductive stream := Inherited | Conout.

(** The console of another process, as kernel32 reports it. *)
Record console_info := {
  con_title : str;             (* GetConsoleTitleW *)
  con_hwnd : Z;                (* GetConsoleWindow, 0 when there is none *)
  con_csbi : option (Z * Z);   (* GetConsoleScreenBufferInfo: dwSize.X, dwSize.Y *)
  con_cells : str;             (* the character cells, row after row *)
  con_readable : bool          (* ReadConsoleOutputCharacterW succeeds *)
}.

Record platform := {
  str_lower : str -> str;                 (* str.lower *)
  getpid : N;                             (* os.getpid() *)
  console_of : N -> option console_info;  (* the console AttachConsole(pid) reaches *)
  foreground : Z;                         (* GetForegroundWindow *)
  iconic : Z -> bool;                     (* IsIconic *)
  window_text : Z -> str;                 (* GetWindowTextW *)
  notify_ok : bool                        (* notification.notify does not raise *)
}.

(** The mutable state: the process's console attachment and standard
    streams, everything written so far, and the global [targets]. *)
Record world := {
  console : attachment;
  stdout : stream;
  stderr : stream;
  output : list event;
  targets : gmap N target
}.

(** ** State and exception monad *)

Definition M (A : Type) : Type := world -> outcome A * world.

Definition ret {A} (a : A) : M A := fun w => (Return a, w).

Definition raise {A} (e : exn) : M A := fun w => (Raise e, w).

Definition bind {A B} (m : M A) (k : A -> M B) : M B :=
  fun w =>
    match m w with
    | (Return a, w') => k a w'
    | (Raise e, w') => (Raise e, w')
    end.

(** [try: m except: h]. *)
Definition try_except {A} (m : M A) (h : exn -> M A) : M A :=
  fun w =>
    match m w with
    | (Return a, w') => (Return a, w')
    | (Raise e, w') => h e w'
    end.

Notation "x <- m ;; k" := (bind m (fun x => k))
  (at level 100, m at next level, right associativity).
Notation "m ;;; k" := (bind m (fun _ => k))
  (at level 100, right associativity).

Definition set_console (a : attachment) : M unit :=
  fun w => (Return tt, {| console := a; stdout := stdout w; stderr := stderr w;
                         output := output w; targets := targets w |}).

Definition emit (e : event) : M unit :=
  fun w => (Return tt, {| console := console w; stdout := stdout w;
                         stderr := stderr w; output := output w ++ [e];
                         targets := targets w |}).

(** [sys.stdout = open("CONOUT$", ...)] and the same for [sys.stderr]. *)
Definition reopen_std_streams : M unit :=
  fun w => (Return tt, {| console := console w; stdout := Conout; stderr := Conout;
                         output := output w; targets := targets w |}).

Definition get_targets : M (gmap N target) := fun w => (Return (targets w), w).

Definition put_targets (t : gmap N target) : M unit :=
  fun w => (Return tt, {| console := console w; stdout := stdout w;
                         stderr := stderr w; output := output w; targets := t |}).

(** [log(msg)]. *)
Definition log (e : event) : M unit := emit e.

(** ** Windows API structures and calls *)

(** A [ctypes.c_short] field keeps the low 16 bits, read as signed. *)
Definition c_short (z : Z) : Z := (z + 32768) mod 65536 - 32768.

Record COORD := { X : Z; Y : Z }.

Definition mkCOORD (x y : Z) : COORD := {| X := c_short x; Y := c_short y |}.

(** [ctypes.create_unicode_buffer(n)]: [n] NUL characters. *)
Definition create_unicode_buffer (n : Z) : str := repeat 0%N (Z.to_nat n).

(** [buffer.value]: the characters before the first NUL. *)
Fixpoint buffer_value (buffer : str) : str :=
  match buffer with
  | [] => []
  | c :: rest => if (c =? 0)%N then [] else c :: buffer_value rest
  end.

(** Python's [a // b] and [a % b] on integers. *)
Definition floordiv (a b : Z) : M Z :=
  if b =? 0 then raise ZeroDivisionError else ret (a / b).

Definition pymod (a b : Z) : M Z :=
  if b =? 0 then raise ZeroDivisionError else ret (a mod b).

(** The cells [ReadConsoleOutputCharacterW] copies for a read of [n]
    characters at [coord] in a buffer that is [width] cells wide: consecutive
    cells from the origin, continuing on the following rows, up to the end
    of the buffer. *)
Definition cells_from (cells : str) (width : Z) (coord : COORD) (n : Z) : str :=
  if (0 <=? X coord) && (0 <=? Y coord)
  then take (Z.to_nat n) (drop (Z.to_nat (Y coord * width + X coord)) cells)
  else [].

Section Program.

Variable P : platform.

(** The console the process is attached to, when it is another process's. *)
Definition attached (w : world) : option console_info :=
  match console w with
  | TargetConsole pid => console_of P pid
  | _ => None
  end.

(** [kernel32.FreeConsole()]. *)
Definition FreeConsole : M bool :=
  set_console Detached ;;; ret true.

(** [kernel32.AttachConsole(dwProcessId)].  [-1] (ATTACH_PARENT_PROCESS)
    stands for the console the watchdog was started in, its own; any other
    value is a process id.  The call fails while a console is attached, and
    when the process has no console to attach to. *)
Definition AttachConsole (dwProcessId : Z) : M bool :=
  fun w =>
    match console w with
    | Detached =>
        if dwProcessId =? -1 then (set_console OwnConsole ;;; ret true) w
        else if dwProcessId <? 0 then (Return false, w)
        else match console_of P (Z.to_N dwProcessId) with
             | Some _ => (set_console (TargetConsole (Z.to_N dwProcessId)) ;;; ret true) w
             | None => (Return false, w)
             end
    | _ => (Return false, w)
    end.

Definition GetConsoleTitleW : M str :=
  fun w => (Return (match attached w with Some ci => con_title ci | None => [] end), w).

Definition GetConsoleWindow : M Z :=
  fun w => (Return (match attached w with Some ci => con_hwnd ci | None => 0 end), w).

(** [GetConsoleScreenBufferInfo]: [dwSize.X] and [dwSize.Y], or failure. *)
Definition GetConsoleScreenBufferInfo : M (option (Z * Z)) :=
  fun w => (Return (match attached w with Some ci => con_csbi ci | None => None end), w).

(** [ReadConsoleOutputCharacterW(hStdOut, buffer, nLength, coord, ...)]:
    the buffer after the call, or failure. *)
Definition ReadConsoleOutputCharacterW (buffer : str) (nLength : Z) (coord : COORD)
  : M (option str) :=
  fun w =>
    (Return
       match attached w with
       | Some ci =>
           match con_csbi ci with
           | Some (width, _) =>
               if con_readable ci
               then let chars := cells_from (con_cells ci) width coord nLength in
                    Some (chars ++ drop (length chars) buffer)
               else None
           | None => None
           end
       | None => None
       end, w).

(** ** [is_window_active] *)

Definition is_window_active (hwnd : option Z) : bool :=
  match hwnd with
  | None => false
  | Some h =>
      if h =? 0 then false
      else
        let foreground_hwnd := foreground P in
        if h =? foreground_hwnd then negb (iconic P h)
        else
          let fg_title := str_lower P (window_text P foreground_hwnd) in
          if str_in (lit "gemini") fg_title ||
             str_in DIAMOND fg_title ||
             str_in STAR fg_title
          then negb (iconic P foreground_hwnd)
          else false
  end.

(** ** [show_notification] *)

(** [notification.notify(title=..., message=..., app_name=..., timeout=...)]. *)
Definition notify (title : str) (msg : message) (app_name : str) (timeout : Z) : M unit :=
  if notify_ok P then emit (Toast title msg app_name timeout)
  else raise NotifyError.

Definition show_notification (title : str) (msg : message) (hwnd : option Z) : M unit :=
  if truthy_hwnd hwnd && is_window_active hwnd then ret tt
  else
    log (LogNotification title msg) ;;;
    try_except
      (notify title msg (lit "Gemini CLI") 5)
      (fun e => log (LogNotificationFailed e)).

(** ** [read_console_buffer] *)

Definition read_len : Z := 8000.

Definition start_idx (width height : Z) : Z := Z.max 0 (width * height - read_len).

(** The result triple [(window_title, content, hwnd)]; all three are [None]
    when the attach failed. *)
Definition read_result : Type := option str * option str * option Z.

Definition read_console_buffer (pid : N) : M read_result :=
  FreeConsole ;;;
  attached_ok <- AttachConsole (Z.of_N pid) ;;
  if (attached_ok : bool) then
    window_title <- GetConsoleTitleW ;;
    hwnd <- GetConsoleWindow ;;
    csbi <- GetConsoleScreenBufferInfo ;;
    content <-
      match csbi with
      | Some (width, height) =>
          start_y <- floordiv (start_idx width height) width ;;
          start_x <- pymod (start_idx width height) width ;;
          let read_coord := mkCOORD start_x start_y in
          let buffer := create_unicode_buffer read_len in
          read <- ReadConsoleOutputCharacterW buffer read_len read_coord ;;
          match read with
          | Some buffer' => ret (buffer_value buffer')
          | None => ret []
          end
      | None => ret []
      end ;;
    FreeConsole ;;;
    AttachConsole (-1) ;;;
    reopen_std_streams ;;;
    ret (Some window_title, Some content, Some hwnd)
  else
    AttachConsole (-1) ;;;
    reopen_std_streams ;;;
    ret (None, None, None).

(** ** Step 3 of the main loop: discovery *)

(** [{info['hwnd'] for info in targets.values() if info['hwnd']}]. *)
Definition tracked_hwnds_of (targets : gmap N target) : gset (option Z) :=
  list_to_set (List.filter truthy_hwnd (hwnd <$> (map_to_list targets).*2)).

(** The test on the candidate's title (it is a string here). *)
Definition title_matches (title : str) : bool :=
  let title_lower := str_lower P title in
  truthy (Some title) &&
  (str_in (lit "gemini") title_lower ||
   str_in (lit "gemini-cli") title_lower ||
   str_in (lit "dist\index.js") title_lower ||
   str_in DIAMOND title ||
   str_in STAR title).

(** The body of [for pid in candidates]; [tracked_hwnds] is the loop's
    local set, [targets] the global dictionary. *)
Definition discover_candidate (tracked_hwnds : gset (option Z)) (pid : N)
  : M (gset (option Z)) :=
  if (pid =? getpid P)%N then ret tracked_hwnds
  else
    try_except
      (r <- read_console_buffer pid ;;
       let '(title, content, hwnd) := r in
       if truthy_hwnd hwnd && bool_decide (hwnd ∈ tracked_hwnds)
       then ret tracked_hwnds
       else
         match title with
         | None => raise AttributeError      (* title.lower() *)
         | Some title =>
             if title_matches title then
               targets <- get_targets ;;
               put_targets (<[pid := {| state := Unknown; hwnd := hwnd |}]> targets) ;;;
               ret ({[hwnd]} ∪ tracked_hwnds)
             else ret tracked_hwnds
         end)
      (fun _ => ret tracked_hwnds).

Fixpoint discover_loop (candidates : list N) (tracked_hwnds : gset (option Z))
  : M (gset (option Z)) :=
  match candidates with
  | [] => ret tracked_hwnds
  | pid :: rest =>
      tracked_hwnds' <- discover_candidate tracked_hwnds pid ;;
      discover_loop rest tracked_hwnds'
  end.

Definition discover (candidates : list N) : M (gset (option Z)) :=
  targets <- get_targets ;;
  discover_loop candidates (tracked_hwnds_of targets).

(** ** Step 4 of the main loop: classification *)

(** The effectful statements of a classifier branch, in program order. *)
Inductive action :=
| CallShowNotification (title : str) (msg : message) (hwnd : option Z)
| AssignState (s : cli_state).

Definition awaiting_input_markers (clean_content : str) : bool :=
  str_in (lit "Interactive shell awaiting input") clean_content ||
  str_in (lit "Action Required") clean_content ||
  str_in (lit "Press tab to focus shell") clean_content.

Definition high_demand_markers (clean_content : str) : bool :=
  str_in (lit "Keep trying") clean_content && str_in (lit "Stop") clean_content.

Definition working_markers (title : str) : bool :=
  str_in (lit "Working") title || str_in STAR title.

Definition ready_markers (title : str) : bool :=
  str_in (lit "Ready") title || str_in DIAMOND title.

(** The [if content:] block. *)
Definition classify (pid : N) (title : str) (content : option str)
    (hwnd : option Z) (last_state : cli_state) : list action :=
  if truthy content then
    let clean_content := strip (default [] content) in
    if awaiting_input_markers clean_content then
      if negb (cli_state_eqb last_state AwaitingInput) then
        [CallShowNotification (lit "Gemini CLI") (ActionRequired pid) hwnd;
         AssignState AwaitingInput]
      else []
    else if high_demand_markers clean_content then
      if negb (cli_state_eqb last_state HighDemand) then
        [CallShowNotification (lit "Gemini CLI") (TaskFailedHighDemand pid) hwnd;
         AssignState HighDemand]
      else []
    else if working_markers title then
      if negb (cli_state_eqb last_state Working) then
        [AssignState Working]
      else []
    else if ready_markers title then
      if cli_state_eqb last_state Working || cli_state_eqb last_state AwaitingInput then
        [CallShowNotification (lit "Gemini CLI") (TaskFinished pid) hwnd;
         AssignState Ready]
      else []
    else []
  else [].

(** [targets[pid]['state'] = s]. *)
Definition set_state (pid : N) (s : cli_state) : M unit :=
  targets <- get_targets ;;
  match targets !! pid with
  | Some info => put_targets (<[pid := {| state := s; hwnd := hwnd info |}]> targets)
  | None => raise KeyError
  end.

Definition exec_action (pid : N) (a : action) : M unit :=
  match a with
  | CallShowNotification title msg hwnd => show_notification title msg hwnd
  | AssignState s => set_state pid s
  end.

Fixpoint exec_actions (pid : N) (l : list action) : M unit :=
  match l with
  | [] => ret tt
  | a :: l' => exec_action pid a ;;; exec_actions pid l'
  end.

(** Classification of one target from what was read of it. *)
Definition classify_target (pid : N) (title : str) (content : option str)
    (hwnd : option Z) : M unit :=
  targets <- get_targets ;;
  match targets !! pid with
  | None => raise KeyError                (* targets[pid] *)
  | Some info =>
      let last_state := state info in
      exec_actions pid (classify pid title content hwnd last_state)
  end.

(** The body of [for pid in list(targets.keys())]. *)
Definition monitor_target (pid : N) : M unit :=
  try_except
    (r <- read_console_buffer pid ;;
     let '(title, content, hwnd) := r in
     match title with
     | None => ret tt                     (* continue *)
     | Some title => classify_target pid title content hwnd
     end)
    (fun e => log (LogErrorChecking pid e)).

End Program.

(** The state [targets[pid]['state']] ends in after the assignments of a branch. *)
Definition state_after (last_state : cli_state) (l : list action) : cli_state :=
  fold_left (fun s a => match a with AssignState s' => s' | _ => s end) l last_state.

Definition is_call (a : action) : bool :=
  match a with CallShowNotification _ _ _ => true | AssignState _ => false end.

Definition is_assign (a : action) : bool :=
  match a with AssignState _ => true | CallShowNotification _ _ _ => false end.

Definition is_toast (e : event) : bool :=
  match e with Toast _ _ _ _ => true | _ => false end.

(** The world once the watchdog's own console and streams are back. *)
Definition restored (w : world) : world :=
  {| console := OwnConsole; stdout := Conout; stderr := Conout;
     output := output w; targets := targets w |}.

(** The world left attached to the console of [pid]. *)
Definition stranded (pid : N) (w : world) : world :=
  {| console := TargetConsole pid; stdout := stdout w; stderr := stderr w;
     output := output w; targets := targets w |}.

(** A screen buffer reported with a width of zero cells. *)
Definition zero_width (ci : console_info) : bool :=
  match con_csbi ci with
  | Some (width, _) => width =? 0
  | None => false
  end.

(** What [read_console_buffer] returns as [content] for a console whose
    buffer is not of zero width. *)
Definition content_of (ci : console_info) : str :=
  match con_csbi ci with
  | Some (width, height) =>
      if con_readable ci then
        let read_coord := mkCOORD (start_idx width height mod width)
                                  (start_idx width height / width) in
        let chars := cells_from (con_cells ci) width read_coord read_len in
        buffer_value (chars ++ drop (length chars) (create_unicode_buffer read_len))
      else []
  | None => []
  end.

(** The world after [evs] were written and [targets] became [t]. *)
Definition after (w : world) (evs : list event) (t : gmap N target) : world :=
  {| console := console w; stdout := stdout w; stderr := stderr w;
     output := output w ++ evs; targets := t |}.

(** What one call of [show_notification] writes. *)
Definition events_of_call (P : platform) (title : str) (msg : message)
    (hwnd : option Z) : list event :=
  if is_window_active P hwnd then []
  else [LogNotification title msg;
        if notify_ok P then Toast title msg (lit "Gemini CLI") 5
        else LogNotificationFailed NotifyError].

(** What the statements of a classifier branch write. *)
Definition events_of (P : platform) (l : list action) : list event :=
  flat_map (fun a => match a with
                     | CallShowNotification title msg hwnd =>
                         events_of_call P title msg hwnd
                     | AssignState _ => []
                     end) l.

(** ** Concrete platforms and worlds for the examples *)

Definition world0 (t : gmap N target) : world :=
  {| console := OwnConsole; stdout := Inherited; stderr := Inherited;
     output := []; targets := t |}.

(** A console with a title, a handle and an [width] x [height] buffer. *)
Definition console_with (title : str) (h : Z) (width height : Z) (cells : str)
  : console_info :=
  {| con_title := title; con_hwnd := h; con_csbi := Some (width, height);
     con_cells := cells; con_readable := true |}.

(** A platform where the watchdog is process 1, nothing is in the
    foreground, and the consoles are those of [consoles]. *)
Definition platform_with (consoles : list (N * console_info)) : platform :=
  {| str_lower := ascii_lower; getpid := 1%N;
     console_of := fun pid => (list_to_map consoles : gmap N console_info) !! pid;
     foreground := 0; iconic := fun _ => false; window_text := fun _ => [];
     notify_ok := true |}.

(** A buffer of 100 x 81 cells: the read starts at row 1, column 0. *)
Definition wide_console : console_info :=
  console_with (lit "Gemini") 55 100 81 (repeat 97%N (Z.to_nat 8100)).

(** The watchdog is process 1; window 5 is in the foreground, not minimised. *)
Definition focused_platform : platform :=
  {| str_lower := ascii_lower; getpid := 1%N; console_of := fun _ => None;
     foreground := 5; iconic := fun _ => false; window_text := fun _ => [];
     notify_ok := true |}.

(** A console that attached but whose screen buffer cannot be queried; its
    title carries the Working marker. *)
Definition unreadable_console : console_info :=
  {| con_title := STAR ++ lit " Working"; con_hwnd := 55; con_csbi := None;
     con_cells := []; con_readable := false |}.

(** A console whose buffer is reported zero cells wide. *)
Definition zero_width_console : console_info :=
  console_with (lit "Gemini") 55 0 25 [].

(** A shell whose title names no CLI while its screen shows one. *)
Definition shell_console : console_info :=
  console_with (lit "Windows PowerShell") 55 10 1 (lit "gemini-cli").

(** Two CLI sessions that report no console window. *)
Definition windowless_console : console_info :=
  console_with (lit "Gemini") 0 4 1 (lit "okay").

(** ** The rest of the main loop: steps 1 and 2, the loops and one pass *)

(** What a pass reads besides the platform: psutil's view of the processes
    and the order in which Python iterates the [targets] dictionary. *)
Record host := {
  host_platform : platform;
  pid_exists : N -> bool;                   (* psutil.pid_exists *)
  process_iter : list (N * option str);     (* psutil.process_iter(['pid', 'name']) *)
  dict_keys : gmap N target -> list N       (* the keys of a dict, as iterated *)
}.

(** Every key is iterated once, and only keys are. *)
Definition keys_ok (H : host) : Prop :=
  forall t : gmap N target,
    NoDup (dict_keys H t) /\
    forall pid, In pid (dict_keys H t) <-> is_Some (t !! pid).

(** The executables a candidate may run. *)
Definition shell_names : list str :=
  [lit "node.exe"; lit "powershell.exe"; lit "pwsh.exe"; lit "cmd.exe"].

(** [del targets[pid]]. *)
Definition del_target (pid : N) : M unit :=
  targets <- get_targets ;;
  match targets !! pid with
  | Some _ => put_targets (delete pid targets)
  | None => raise KeyError
  end.

Fixpoint del_targets (pids : list N) : M unit :=
  match pids with
  | [] => ret tt
  | pid :: rest => del_target pid ;;; del_targets rest
  end.

(** Step 1, first loop: the tracked pids whose process is gone. *)
Definition dead_pids_of (H : host) (targets : gmap N target) : list N :=
  List.filter (fun pid => negb (pid_exists H pid)) (dict_keys H targets).

(** Step 1: [dead_pids] is collected, then every one of them is deleted. *)
Definition prune_dead (H : host) : M (list N) :=
  targets <- get_targets ;;
  let dead_pids := dead_pids_of H targets in
  del_targets dead_pids ;;;
  ret dead_pids.

(** Step 2: the pids of the shell and node processes that are not tracked.
    A process without a name makes [.lower()] raise and is skipped. *)
Fixpoint find_candidates (P : platform) (procs : list (N * option str))
    (targets : gmap N target) : list N :=
  match procs with
  | [] => []
  | (pid, None) :: rest => find_candidates P rest targets
  | (pid, Some name) :: rest =>
      let name := str_lower P name in
      if bool_decide (name ∈ shell_names) then
        if bool_decide (targets !! pid = None)
        then pid :: find_candidates P rest targets
        else find_candidates P rest targets
      else find_candidates P rest targets
  end.

(** Step 4: [for pid in list(targets.keys())]. *)
Fixpoint monitor_loop (P : platform) (pids : list N) : M unit :=
  match pids with
  | [] => ret tt
  | pid :: rest => monitor_target P pid ;;; monitor_loop P rest
  end.

(** The body of the outer [try:], steps 1 to 4; it returns [dead_pids]. *)
Definition pass_body (H : host) : M (list N) :=
  dead_pids <- prune_dead H ;;
  targets <- get_targets ;;
  let candidates := find_candidates (host_platform H) (process_iter H) targets in
  discover (host_platform H) candidates ;;;
  targets <- get_targets ;;
  monitor_loop (host_platform H) (dict_keys H targets) ;;;
  ret dead_pids.

(** A line on the console during a pass: the "died" lines of step 1, what
    steps 3 and 4 write, and the "Loop Error" line of the outer [except]. *)
Inductive line :=
| TargetDied (pid : N)
| Wrote (e : event)
| LoopError (e : exn).

(** One iteration of [while True] up to the polling delay: the lines it
    writes, in order, and the world it leaves. *)
Definition poll_pass (H : host) (w : world) : list line * world :=
  let died := map TargetDied (dead_pids_of H (targets w)) in
  match pass_body H w with
  | (Return _, w') =>
      (died ++ map Wrote (drop (length (output w)) (output w')), w')
  | (Raise e, w') =>
      (died ++ map Wrote (drop (length (output w)) (output w')) ++ [LoopError e], w')
  end.

(** The first iterations of [while True], each with what the host shows
    during it. *)
Fixpoint run_passes (hosts : list host) (w : world) : world :=
  match hosts with
  | [] => w
  | H :: rest => run_passes rest (snd (poll_pass H w))
  end.

(** No two targets share a present console handle. *)
Definition handles_unique (t : gmap N target) : Prop :=
  forall p q i j,
    t !! p = Some i -> t !! q = Some j ->
    truthy_hwnd (hwnd i) = true -> hwnd i = hwnd j -> p = q.

(** The title of the foreground window carries a CLI marker. *)
Definition foreground_marked (P : platform) : bool :=
  let fg_title := str_lower P (window_text P (foreground P)) in
  str_in (lit "gemini") fg_title || str_in DIAMOND fg_title || str_in STAR fg_title.

(** A host over [platform_with consoles] that iterates dicts by key. *)
Definition host_with (consoles : list (N * console_info))
    (alive : N -> bool) (procs : list (N * option str)) : host :=
  {| host_platform := platform_with consoles;
     pid_exists := alive;
     process_iter := procs;
     dict_keys := fun t => (map_to_list t).*1 |}.

(** The loop's local set holds every present handle of a target. *)
Definition tracked_covers (t : gmap N target) (tracked : gset (option Z)) : Prop :=
  forall p i, t !! p = Some i -> truthy_hwnd (hwnd i) = true -> hwnd i ∈ tracked.

(** Every entry of [targets] after the loop was there before or was
    written for a candidate. *)
Definition written_for (P : platform) (candidates : list N) (q : N)
    (info : target) : Prop :=
  In q candidates /\ q <> getpid P /\ state info = Unknown /\
  exists ci, console_of P q = Some ci /\
             title_matches P (con_title ci) = true /\
             hwnd info = Some (con_hwnd ci).

(** A console whose title shows the Ready marker over a non-empty screen. *)
Definition ready_console : console_info :=
  console_with (DIAMOND ++ lit " Ready") 55 4 1 (lit "done").

(** A host with two sessions in one console window (handle 55), a shell
    and the node process it runs, both alive and listed. *)
Definition shared_console_host : host :=
  host_with [(7%N, wide_console); (8%N, wide_console)] (fun _ => true)
    [(7%N, Some (lit "PowerShell.exe")); (8%N, Some (lit "node.exe"))].


(** * Facts about strings *)

Lemma starts_with_spec p s :
  starts_with p s = true <-> exists r, s = p ++ r.
Proof.
  revert s; induction p as [|a p IH]; intros s; simpl.
  - split; [intros _; now exists s | reflexivity].
  - destruct s as [|b s]; simpl.
    + split; [discriminate | intros [r Hr]; discriminate].
    + rewrite andb_true_iff, N.eqb_eq, IH. split.
      * intros [-> [r ->]]. now exists r.
      * intros [r Hr]. injection Hr as -> ->. split; [reflexivity | now exists r].
Qed.

Lemma str_in_spec needle hay :
  str_in needle hay = true <-> exists l r, hay = l ++ needle ++ r.
Proof.
  induction hay as [|c hay IH]; simpl.
  - rewrite orb_false_r, starts_with_spec. split.
    + intros [r ->]. now exists [], r.
    + intros [l [r H]]. destruct l as [|x l]; [now exists r | discriminate].
  - rewrite orb_true_iff, starts_with_spec, IH. split.
    + intros [[r ->] | [l [r ->]]]; [now exists [], r | now exists (c :: l), r].
    + intros [l [r H]]. destruct l as [|x l]; simpl in H.
      * left. now exists r.
      * right. injection H as -> ->. now exists l, r.
Qed.

(** A needle that is found is never the empty haystack's. *)
Lemma str_in_nonempty needle hay :
  needle <> [] -> str_in needle hay = true -> hay <> [].
Proof.
  intros Hn H ->. apply str_in_spec in H as [l [r H]].
  destruct l; [destruct needle; [congruence | discriminate] | discriminate].
Qed.

(** [lstrip] removes a prefix. *)
Lemma lstrip_suffix s : exists l, s = l ++ lstrip s.
Proof.
  induction s as [|c s [l IH]]; simpl.
  - now exists [].
  - destruct (isspace c); [exists (c :: l); simpl; congruence | now exists []].
Qed.

Lemma lstrip_app l a s :
  isspace a = false -> exists l', lstrip (l ++ a :: s) = l' ++ a :: s.
Proof.
  intros Ha. induction l as [|c l [l' IH]]; simpl.
  - rewrite Ha. now exists [].
  - destruct (isspace c); [now exists l' | now exists (c :: l)].
Qed.

Lemma rstrip_prefix s : exists r, s = rstrip s ++ r.
Proof.
  unfold rstrip. destruct (lstrip_suffix (rev s)) as [l Hl].
  exists (rev l). rewrite <- rev_app_distr, <- Hl. now rewrite rev_involutive.
Qed.

Lemma rstrip_app s a r :
  isspace a = false -> exists r', rstrip (s ++ a :: r) = s ++ a :: r'.
Proof.
  intros Ha. unfold rstrip.
  rewrite rev_app_distr. simpl. rewrite <- app_assoc. simpl.
  destruct (lstrip_app (rev r) a (rev s) Ha) as [l' ->].
  exists (rev l'). rewrite rev_app_distr. simpl.
  rewrite rev_involutive, <- app_assoc. reflexivity.
Qed.

(** Whatever is found in the stripped text is found in the text. *)
Lemma str_in_strip_inv needle s :
  str_in needle (strip s) = true -> str_in needle s = true.
Proof.
  rewrite !str_in_spec. intros [l [r H]]. unfold strip in H.
  destruct (lstrip_suffix s) as [l0 Hl0].
  destruct (rstrip_prefix (lstrip s)) as [r0 Hr0].
  exists (l0 ++ l), (r ++ r0).
  rewrite Hl0, Hr0, H. now rewrite <- !app_assoc.
Qed.

(** A marker that neither starts nor ends with white space survives [strip]. *)
Lemma str_in_strip m s :
  unpadded m = true -> str_in m s = true -> str_in m (strip s) = true.
Proof.
  destruct m as [|a m']; [discriminate |].
  unfold unpadded. rewrite andb_true_iff, !negb_true_iff. intros [Ha Hz].
  rewrite !str_in_spec. intros [l [r ->]]. unfold strip. simpl.
  destruct (lstrip_app l a (m' ++ r) Ha) as [l' ->].
  assert (Hm : a :: m' <> []) by discriminate.
  destruct (exists_last Hm) as [m0 [z Hsplit]].
  rewrite Hsplit, last_last in Hz.
  change (l' ++ a :: m' ++ r) with (l' ++ (a :: m') ++ r).
  rewrite Hsplit.
  replace (l' ++ (m0 ++ [z]) ++ r) with ((l' ++ m0) ++ z :: r)
    by (rewrite <- !app_assoc; reflexivity).
  destruct (rstrip_app (l' ++ m0) z r Hz) as [r' ->].
  exists l', r'.
  change (l' ++ a :: m' ++ r') with (l' ++ (a :: m') ++ r').
  rewrite Hsplit, <- !app_assoc. reflexivity.
Qed.

Lemma str_in_strip_eq m s :
  unpadded m = true -> str_in m (strip s) = str_in m s.
Proof.
  intros Hm. apply eq_true_iff_eq. split.
  - apply str_in_strip_inv.
  - now apply str_in_strip.
Qed.

(** The content markers are looked for in the stripped text; they are found
    there exactly when the text as read has them. *)
Lemma awaiting_input_markers_strip content :
  awaiting_input_markers (strip content) = awaiting_input_markers content.
Proof.
  unfold awaiting_input_markers. now rewrite !str_in_strip_eq by reflexivity.
Qed.

Lemma high_demand_markers_strip content :
  high_demand_markers (strip content) = high_demand_markers content.
Proof.
  unfold high_demand_markers. now rewrite !str_in_strip_eq by reflexivity.
Qed.

Lemma awaiting_input_markers_nonempty content :
  awaiting_input_markers content = true -> content <> [].
Proof.
  unfold awaiting_input_markers. rewrite !orb_true_iff.
  intros [[H | H] | H]; eapply str_in_nonempty; try exact H; discriminate.
Qed.

Lemma high_demand_markers_nonempty content :
  high_demand_markers content = true -> content <> [].
Proof.
  unfold high_demand_markers. rewrite andb_true_iff.
  intros [H _]. eapply str_in_nonempty; try exact H; discriminate.
Qed.

Lemma truthy_nonempty content : content <> [] -> truthy (Some content) = true.
Proof. destruct content; [congruence | reflexivity]. Qed.

(** The classifier on a non-empty text, with the markers tested on the text
    as read: the four rules in their order. *)
Lemma classify_rules pid title content hwnd last_state :
  content <> [] ->
  classify pid title (Some content) hwnd last_state =
    if awaiting_input_markers content then
      if negb (cli_state_eqb last_state AwaitingInput) then
        [CallShowNotification (lit "Gemini CLI") (ActionRequired pid) hwnd;
         AssignState AwaitingInput]
      else []
    else if high_demand_markers content then
      if negb (cli_state_eqb last_state HighDemand) then
        [CallShowNotification (lit "Gemini CLI") (TaskFailedHighDemand pid) hwnd;
         AssignState HighDemand]
      else []
    else if working_markers title then
      if negb (cli_state_eqb last_state Working) then [AssignState Working] else []
    else if ready_markers title then
      if cli_state_eqb last_state Working || cli_state_eqb last_state AwaitingInput
      then [CallShowNotification (lit "Gemini CLI") (TaskFinished pid) hwnd;
            AssignState Ready]
      else []
    else [].
Proof.
  intros Hne. unfold classify. rewrite truthy_nonempty by assumption.
  cbn [default]. now rewrite awaiting_input_markers_strip, high_demand_markers_strip.
Qed.

(** * Facts about the console access *)

Arguments AttachConsole : simpl never.

Section ConsoleFacts.

Variable P : platform.

Lemma AttachConsole_pid pid w :
  console w = Detached ->
  AttachConsole P (Z.of_N pid) w =
    match console_of P pid with
    | Some _ => (Return true, stranded pid w)
    | None => (Return false, w)
    end.
Proof.
  intros Hd. unfold AttachConsole. rewrite Hd.
  replace (Z.of_N pid =? -1) with false by (symmetry; apply Z.eqb_neq; lia).
  replace (Z.of_N pid <? 0) with false by (symmetry; apply Z.ltb_ge; lia).
  rewrite N2Z.id. destruct (console_of P pid); reflexivity.
Qed.

(** A failed attach: the own console is attached again, then the triple of
    [None]s is returned. *)
Lemma read_console_buffer_attach_failed pid w :
  console_of P pid = None ->
  read_console_buffer P pid w = (Return (None, None, None), restored w).
Proof.
  intros Hc. unfold read_console_buffer, bind, FreeConsole, set_console, ret.
  cbn. rewrite AttachConsole_pid by reflexivity. rewrite Hc. reflexivity.
Qed.

(** A successful attach to a console whose buffer is not of zero width. *)
Lemma read_console_buffer_attached pid ci w :
  console_of P pid = Some ci ->
  zero_width ci = false ->
  read_console_buffer P pid w =
    (Return (Some (con_title ci), Some (content_of ci), Some (con_hwnd ci)),
     restored w).
Proof.
  intros Hc Hz. unfold read_console_buffer, bind, FreeConsole, set_console, ret.
  cbn. rewrite AttachConsole_pid by reflexivity. rewrite Hc.
  unfold GetConsoleTitleW, GetConsoleWindow, GetConsoleScreenBufferInfo,
    ReadConsoleOutputCharacterW, attached, stranded, content_of,
    floordiv, pymod, bind, ret, raise. cbn. rewrite Hc.
  unfold zero_width in Hz.
  destruct (con_csbi ci) as [[width height]|] eqn:Hcsbi; [| reflexivity].
  rewrite Hz. cbn. rewrite Hc. cbn. rewrite Hcsbi.
  destruct (con_readable ci); reflexivity.
Qed.

(** A successful attach to a console whose buffer is reported zero cells
    wide: the division raises, with the target's console still attached. *)
Lemma read_console_buffer_zero_width pid ci w :
  console_of P pid = Some ci ->
  zero_width ci = true ->
  read_console_buffer P pid w = (Raise ZeroDivisionError, stranded pid w).
Proof.
  intros Hc Hz. unfold read_console_buffer, bind, FreeConsole, set_console, ret.
  cbn. rewrite AttachConsole_pid by reflexivity. rewrite Hc.
  unfold GetConsoleTitleW, GetConsoleWindow, GetConsoleScreenBufferInfo,
    attached, stranded, floordiv, pymod, bind, ret, raise. cbn. rewrite Hc.
  unfold zero_width in Hz.
  destruct (con_csbi ci) as [[width height]|]; [| discriminate].
  rewrite Hz. reflexivity.
Qed.

End ConsoleFacts.

(** * Facts about the screen tail *)

Lemma c_short_small z : -32768 <= z <= 32767 -> c_short z = z.
Proof. intros H. unfold c_short. rewrite Z.mod_small by lia. lia. Qed.

Lemma buffer_value_nul_padding chars zs :
  Forall (fun c => c = 0%N) zs ->
  buffer_value (chars ++ zs) = buffer_value chars.
Proof.
  intros Hz. induction chars as [|c chars IH]; simpl.
  - destruct Hz as [|z zs Hz0 _]; [reflexivity | now subst].
  - now rewrite IH.
Qed.

Lemma buffer_value_no_nul chars :
  Forall (fun c => c <> 0%N) chars -> buffer_value chars = chars.
Proof.
  induction 1 as [|c chars Hc _ IH]; simpl; [reflexivity |].
  apply N.eqb_neq in Hc. now rewrite Hc, IH.
Qed.

Lemma create_unicode_buffer_nul n k :
  Forall (fun c => c = 0%N) (drop k (create_unicode_buffer n)).
Proof.
  apply Forall_drop, Forall_forall. intros c Hc.
  apply list_elem_of_In in Hc. now apply repeat_spec in Hc.
Qed.

(** C8: [read_console_buffer] treats the screen buffer as a flat array of
    [width * height] cells and starts its read at the linear offset
    [max(0, width * height - 8000)], turned into the origin
    [row = offset // width], [column = offset % width]; for a positive width
    [row * width + column = offset], the origin fits the [COORD] fields, the
    cells read are the last at most 8000 cells of the buffer, and the content
    returned is their text (all of them when no cell holds NUL, where
    [buffer.value] stops). *)
Theorem screen_tail_origin (P : platform) (pid : N) (ci : console_info)
    (w : world) (width height : Z) :
  console_of P pid = Some ci ->
  con_csbi ci = Some (width, height) ->
  con_readable ci = true ->
  0 < width <= 32767 ->
  0 <= height <= 32767 ->
  length (con_cells ci) = Z.to_nat (width * height) ->
  let offset := start_idx width height in
  let row := offset / width in
  let column := offset mod width in
  let tail := drop (length (con_cells ci) - Z.to_nat read_len) (con_cells ci) in
  offset = Z.max 0 (width * height - 8000) /\
  row * width + column = offset /\
  0 <= column < width /\
  mkCOORD column row = {| X := column; Y := row |} /\
  cells_from (con_cells ci) width (mkCOORD column row) read_len = tail /\
  (length tail <= Z.to_nat read_len)%nat /\
  read_console_buffer P pid w =
    (Return (Some (con_title ci), Some (buffer_value tail), Some (con_hwnd ci)),
     restored w) /\
  (Forall (fun c => c <> 0%N) (con_cells ci) -> buffer_value tail = tail).
Proof.
  intros Hc Hcsbi Hread Hw Hh Hlen offset row column tail.
  assert (Hoff : offset = Z.max 0 (width * height - 8000)) by reflexivity.
  assert (Hdm : row * width + column = offset).
  { unfold row, column. rewrite (Z.div_mod offset width) at 3 by lia. lia. }
  assert (Hcol : 0 <= column < width) by (apply Z.mod_pos_bound; lia).
  assert (Hoff0 : 0 <= offset <= width * height) by nia.
  assert (Hrow : 0 <= row <= height).
  { split; [apply Z.div_pos; lia |].
    apply Z.div_le_upper_bound; [lia | nia]. }
  assert (Hcoord : mkCOORD column row = {| X := column; Y := row |}).
  { unfold mkCOORD. now rewrite !c_short_small by lia. }
  assert (Hcells : cells_from (con_cells ci) width (mkCOORD column row) read_len = tail).
  { rewrite Hcoord. unfold cells_from. cbn [X Y].
    replace (0 <=? column) with true by (symmetry; apply Z.leb_le; lia).
    replace (0 <=? row) with true by (symmetry; apply Z.leb_le; lia).
    cbn [andb]. rewrite Hdm.
    replace (Z.to_nat offset) with (length (con_cells ci) - Z.to_nat read_len)%nat
      by (unfold read_len; lia).
    fold tail. apply take_ge. unfold tail. rewrite length_drop.
    unfold read_len. lia. }
  assert (Htail : (length tail <= Z.to_nat read_len)%nat).
  { unfold tail. rewrite length_drop. unfold read_len. lia. }
  repeat split; try assumption; try lia.
  - rewrite (read_console_buffer_attached P pid ci w Hc).
    + unfold content_of. rewrite Hcsbi, Hread. fold offset row column.
      cbv zeta. rewrite Hcells.
      now rewrite buffer_value_nul_padding by apply create_unicode_buffer_nul.
    + unfold zero_width. rewrite Hcsbi. apply Z.eqb_neq. lia.
  - intros Hnul. apply buffer_value_no_nul. unfold tail. now apply Forall_drop.
Qed.

Lemma screen_tail_origin_witness :
  read_console_buffer (platform_with [(7%N, wide_console)]) 7 (world0 ∅) =
    (Return (Some (con_title wide_console),
             Some (buffer_value
                     (drop (length (con_cells wide_console) - Z.to_nat read_len)
                        (con_cells wide_console))),
             Some (con_hwnd wide_console)),
     restored (world0 ∅)).
Proof.
  apply (screen_tail_origin (platform_with [(7%N, wide_console)]) 7%N
           wide_console (world0 ∅) 100 81);
    [reflexivity | reflexivity | reflexivity | lia | lia |].
  unfold wide_console, console_with. cbn [con_cells]. apply repeat_length.
Defined.

(** * Facts about notifications *)

Lemma after_id w : after w [] (targets w) = w.
Proof. destruct w. unfold after. cbn. now rewrite app_nil_r. Qed.

Lemma after_after w evs1 t1 evs2 t2 :
  after (after w evs1 t1) evs2 t2 = after w (evs1 ++ evs2) t2.
Proof. unfold after. cbn. now rewrite app_assoc. Qed.

Lemma is_window_active_truthy P hwnd :
  is_window_active P hwnd = true -> truthy_hwnd hwnd = true.
Proof.
  destruct hwnd as [h|]; [| discriminate]. cbn.
  destruct (h =? 0); [discriminate | reflexivity].
Qed.

(** One call of [show_notification]: it returns normally, writes
    [events_of_call] and leaves the rest of the world as it was. *)
Lemma show_notification_run P title msg hwnd w :
  show_notification P title msg hwnd w =
    (Return tt, after w (events_of_call P title msg hwnd) (targets w)).
Proof.
  unfold show_notification, events_of_call.
  destruct (is_window_active P hwnd) eqn:Hact.
  - rewrite (is_window_active_truthy P hwnd Hact). cbn. now rewrite after_id.
  - rewrite andb_false_r.
    unfold bind, log, try_except, notify, emit, raise, after. cbn.
    destruct (notify_ok P); cbn; now rewrite <- app_assoc.
Qed.

(** C7, amended to what [show_notification] does: when the window is
    focused the call returns at once, so the log line and the delivery are
    both suppressed and nothing is written; otherwise the event is logged
    first and delivery is delegated to [notification.notify], whose failure
    is logged and goes no further. *)
Theorem notification_focus_gate (P : platform) (title : str) (msg : message)
    (hwnd : option Z) (w : world) :
  (is_window_active P hwnd = true ->
   show_notification P title msg hwnd w = (Return tt, w)) /\
  (is_window_active P hwnd = false ->
   show_notification P title msg hwnd w =
     (Return tt,
      after w [LogNotification title msg;
               if notify_ok P then Toast title msg (lit "Gemini CLI") 5
               else LogNotificationFailed NotifyError] (targets w))).
Proof.
  rewrite show_notification_run. unfold events_of_call.
  split; intros ->; [now rewrite after_id | reflexivity].
Qed.

Lemma notification_focus_gate_witness :
  show_notification (platform_with []) (lit "Gemini CLI") (ActionRequired 7) (Some 5)
    (world0 ∅) =
  (Return tt,
   after (world0 ∅)
     [LogNotification (lit "Gemini CLI") (ActionRequired 7);
      Toast (lit "Gemini CLI") (ActionRequired 7) (lit "Gemini CLI") 5] ∅).
Proof.
  apply (proj2 (notification_focus_gate (platform_with []) (lit "Gemini CLI")
                  (ActionRequired 7) (Some 5) (world0 ∅))).
  reflexivity.
Defined.

(** C7 as stated (the event is logged whatever the focus) fails: with the
    window in the foreground the call returns without a log line. *)
Lemma focused_notification_not_logged :
  is_window_active focused_platform (Some 5) = true /\
  output (snd (show_notification focused_platform (lit "Gemini CLI")
                 (ActionRequired 7) (Some 5) (world0 ∅))) = [].
Proof. split; reflexivity. Qed.

(** * Facts about classification *)

Lemma set_state_run pid s w info :
  targets w !! pid = Some info ->
  set_state pid s w =
    (Return tt, after w [] (<[pid := {| state := s; hwnd := hwnd info |}]> (targets w))).
Proof.
  intros Hinfo. unfold set_state, bind, get_targets, put_targets, after.
  rewrite Hinfo. cbn. now rewrite app_nil_r.
Qed.

(** Running the statements of a branch: they all return, the notifications
    are written in order, and [targets[pid]['state']] ends as [state_after]
    says; the handle stored for [pid] and every other target stay. *)
Lemma exec_actions_run P pid l : forall w info,
  targets w !! pid = Some info ->
  exec_actions P pid l w =
    (Return tt,
     after w (events_of P l)
       (<[pid := {| state := state_after (state info) l; hwnd := hwnd info |}]>
          (targets w))).
Proof.
  induction l as [|a l IH]; intros w info Hinfo.
  - cbn. rewrite insert_id by (destruct info; exact Hinfo). now rewrite after_id.
  - cbn [exec_actions]. unfold bind. destruct a as [title msg h | s]; cbn [exec_action].
    + rewrite show_notification_run.
      rewrite (IH _ info) by exact Hinfo.
      now rewrite after_after.
    + rewrite (set_state_run pid s w info Hinfo).
      rewrite (IH _ {| state := s; hwnd := hwnd info |})
        by (cbn; apply lookup_insert_eq).
      rewrite after_after. cbn. now rewrite insert_insert_eq.
Qed.

Lemma classify_target_run P pid title content h w info :
  targets w !! pid = Some info ->
  classify_target P pid title content h w =
    (Return tt,
     after w (events_of P (classify pid title content h (state info)))
       (<[pid := {| state := state_after (state info)
                               (classify pid title content h (state info));
                    hwnd := hwnd info |}]> (targets w))).
Proof.
  intros Hinfo. unfold classify_target, bind, get_targets. rewrite Hinfo.
  now apply exec_actions_run.
Qed.

(** A classification whose branch has no statement leaves the world alone. *)
Lemma classify_target_idle P pid title content h w info :
  targets w !! pid = Some info ->
  classify pid title content h (state info) = [] ->
  classify_target P pid title content h w = (Return tt, w).
Proof.
  intros Hinfo Hnil. rewrite (classify_target_run P _ _ _ _ _ info Hinfo), Hnil.
  cbn. rewrite insert_id by (destruct info; exact Hinfo). now rewrite after_id.
Qed.

(** C1: a text with an AwaitingInput marker and a title with a Working
    marker leave the target in AwaitingInput, never Working; and the rules
    apply in the order AwaitingInput, HighDemand, Working, Ready, the first
    whose markers are present deciding the state whatever markers of later
    rules are present too. *)
Theorem classifier_precedence (P : platform) (pid : N) (title content : str)
    (h : option Z) (w : world) (info : target) :
  let last_state := state info in
  let acts := classify pid title (Some content) h last_state in
  (targets w !! pid = Some info ->
   awaiting_input_markers content = true ->
   working_markers title = true ->
   exists w', classify_target P pid title (Some content) h w = (Return tt, w') /\
              targets w' !! pid = Some {| state := AwaitingInput; hwnd := hwnd info |}) /\
  (awaiting_input_markers content = true ->
   state_after last_state acts = AwaitingInput) /\
  (awaiting_input_markers content = false ->
   high_demand_markers content = true ->
   state_after last_state acts = HighDemand) /\
  (content <> [] ->
   awaiting_input_markers content = false ->
   high_demand_markers content = false ->
   working_markers title = true ->
   state_after last_state acts = Working) /\
  (content <> [] ->
   awaiting_input_markers content = false ->
   high_demand_markers content = false ->
   working_markers title = false ->
   ready_markers title = true ->
   state_after last_state acts =
     match last_state with
     | Working | AwaitingInput => Ready
     | _ => last_state
     end).
Proof.
  intros last_state acts.
  assert (Hai : awaiting_input_markers content = true ->
                state_after last_state acts = AwaitingInput).
  { intros H. unfold acts.
    rewrite classify_rules by now apply awaiting_input_markers_nonempty.
    rewrite H. destruct last_state; reflexivity. }
  split; [| split; [exact Hai | split; [| split]]].
  - intros Hinfo H _. eexists. split.
    + apply (classify_target_run P _ _ _ _ _ info Hinfo).
    + cbn. rewrite lookup_insert_eq. fold last_state acts. now rewrite Hai.
  - intros H1 H2. unfold acts.
    rewrite classify_rules by now apply high_demand_markers_nonempty.
    rewrite H1, H2. destruct last_state; reflexivity.
  - intros Hne H1 H2 H3. unfold acts. rewrite classify_rules by assumption.
    rewrite H1, H2, H3. destruct last_state; reflexivity.
  - intros Hne H1 H2 H3 H4. unfold acts. rewrite classify_rules by assumption.
    rewrite H1, H2, H3, H4. destruct last_state; reflexivity.
Qed.

Lemma classifier_precedence_witness :
  exists w',
    classify_target (platform_with []) 7 (STAR ++ lit " Working")
      (Some (lit "Action Required")) (Some 5)
      (world0 {[ 7%N := {| state := Working; hwnd := Some 5 |} ]}) = (Return tt, w') /\
    targets w' !! 7%N = Some {| state := AwaitingInput; hwnd := Some 5 |}.
Proof.
  apply (proj1 (classifier_precedence (platform_with []) 7 (STAR ++ lit " Working")
                  (lit "Action Required") (Some 5)
                  (world0 {[ 7%N := {| state := Working; hwnd := Some 5 |} ]})
                  {| state := Working; hwnd := Some 5 |}));
    reflexivity.
Defined.

(** The branch taken has one of four shapes. *)
Lemma classify_shape pid title content h last_state :
  let acts := classify pid title content h last_state in
  acts = [] \/
  (acts = [AssignState Working] /\ last_state <> Working) \/
  exists msg s,
    acts = [CallShowNotification (lit "Gemini CLI") msg h; AssignState s] /\
    s <> last_state /\
    ((msg = ActionRequired pid /\ s = AwaitingInput) \/
     (msg = TaskFailedHighDemand pid /\ s = HighDemand) \/
     (msg = TaskFinished pid /\ s = Ready /\
      (last_state = Working \/ last_state = AwaitingInput) /\
      ready_markers title = true)).
Proof.
  cbv zeta. unfold classify.
  destruct (truthy content); [| now left].
  destruct (awaiting_input_markers _).
  { destruct last_state; cbn; try (now left);
      right; right; exists (ActionRequired pid), AwaitingInput; intuition congruence. }
  destruct (high_demand_markers _).
  { destruct last_state; cbn; try (now left);
      right; right; exists (TaskFailedHighDemand pid), HighDemand; intuition congruence. }
  destruct (working_markers title).
  { destruct last_state; cbn; try (now left); right; left; split; congruence. }
  destruct (ready_markers title); [| now left].
  destruct last_state; cbn; try (now left);
    right; right; exists (TaskFinished pid), Ready;
    (split; [reflexivity | split; [congruence |]]);
    right; right; auto.
Qed.

Lemma events_of_call_toasts P title msg h :
  (length (List.filter is_toast (events_of_call P title msg h)) <= 1)%nat.
Proof.
  unfold events_of_call.
  destruct (is_window_active P h); [cbn; lia |].
  destruct (notify_ok P); cbn; lia.
Qed.

(** C10: one classification of one target runs at most one branch: at most
    one assignment to the state and at most one call of [show_notification]
    (hence at most one delivered notification), and a call is always
    followed, in the same branch, by an assignment that changes the state. *)
Theorem one_rule_fires (P : platform) (pid : N) (title : str)
    (content : option str) (h : option Z) (last_state : cli_state) :
  let acts := classify pid title content h last_state in
  (length (List.filter is_assign acts) <= 1)%nat /\
  (length (List.filter is_call acts) <= 1)%nat /\
  (length (List.filter is_toast (events_of P acts)) <= 1)%nat /\
  (forall t msg h', In (CallShowNotification t msg h') acts ->
     exists s, acts = [CallShowNotification t msg h'; AssignState s] /\
               s <> last_state /\
               state_after last_state acts = s).
Proof.
  intros acts.
  destruct (classify_shape pid title content h last_state)
    as [Hs | [[Hs _] | [msg [s [Hs [Hne _]]]]]];
    fold acts in Hs; rewrite Hs.
  - cbn. split; [lia | split; [lia | split; [lia |]]]. intros t msg h' [].
  - cbn. split; [lia | split; [lia | split; [lia |]]].
    intros t msg h' [Hin | []]. discriminate.
  - cbn. rewrite app_nil_r. split; [lia | split; [lia | split]].
    + apply events_of_call_toasts.
    + intros t msg' h' [Hin | [Hin | []]]; [| discriminate].
      injection Hin as <- <- <-. exists s. repeat split; assumption.
Qed.

(** C5, amended to what the classifier does. A "Task Finished" call is only
    ever made from Working or AwaitingInput, with a Ready marker in the
    title. When the Ready rule is the first to match (non-empty text without
    AwaitingInput and HighDemand markers, title without a Working marker):
    from Working or AwaitingInput the target becomes Ready and
    [show_notification] is called with "Task Finished"; from Unknown, Ready
    or HighDemand nothing is notified and the world is unchanged. *)
Theorem task_finished_rule (P : platform) (pid : N) (title content : str)
    (h : option Z) (w : world) (info : target) :
  let last_state := state info in
  (forall t h' c, In (CallShowNotification t (TaskFinished pid) h')
                     (classify pid title c h last_state) ->
     (last_state = Working \/ last_state = AwaitingInput) /\
     ready_markers title = true) /\
  (targets w !! pid = Some info ->
   ready_markers title = true ->
   content <> [] ->
   awaiting_input_markers content = false ->
   high_demand_markers content = false ->
   working_markers title = false ->
   (last_state = Working \/ last_state = AwaitingInput ->
    classify_target P pid title (Some content) h w =
      (Return tt,
       after w (events_of_call P (lit "Gemini CLI") (TaskFinished pid) h)
         (<[pid := {| state := Ready; hwnd := hwnd info |}]> (targets w)))) /\
   (last_state = Unknown \/ last_state = Ready \/ last_state = HighDemand ->
    classify_target P pid title (Some content) h w = (Return tt, w))).
Proof.
  intros last_state. split.
  - intros t h' c Hin.
    destruct (classify_shape pid title c h last_state)
      as [Hs | [[Hs _] | [msg [s [Hs [_ Hcase]]]]]];
      cbv zeta in Hs; rewrite Hs in Hin.
    + destruct Hin.
    + destruct Hin as [Hin | []]. discriminate.
    + destruct Hin as [Hin | [Hin | []]]; [| discriminate].
      injection Hin as _ Hmsg _.
      destruct Hcase as [[-> _] | [[-> _] | [_ [_ Hlast]]]];
        [discriminate | discriminate | exact Hlast].
  - intros Hinfo Hready Hne Hai Hhd Hwork.
    assert (Hacts : classify pid title (Some content) h last_state =
              if cli_state_eqb last_state Working || cli_state_eqb last_state AwaitingInput
              then [CallShowNotification (lit "Gemini CLI") (TaskFinished pid) h;
                    AssignState Ready]
              else []).
    { rewrite classify_rules by assumption. now rewrite Hai, Hhd, Hwork, Hready. }
    split.
    + intros Hlast.
      rewrite (classify_target_run P _ _ _ _ _ info Hinfo). fold last_state.
      rewrite Hacts.
      destruct Hlast as [-> | ->]; cbn; now rewrite app_nil_r.
    + intros Hlast. apply (classify_target_idle P _ _ _ _ _ info Hinfo).
      fold last_state. rewrite Hacts.
      destruct Hlast as [-> | [-> | ->]]; reflexivity.
Qed.

Lemma task_finished_rule_witness :
  classify_target (platform_with []) 7 (DIAMOND ++ lit " Ready")
    (Some (lit "done")) (Some 5)
    (world0 {[ 7%N := {| state := Unknown; hwnd := Some 5 |} ]}) =
  (Return tt, world0 {[ 7%N := {| state := Unknown; hwnd := Some 5 |} ]}).
Proof.
  apply (proj2 (task_finished_rule (platform_with []) 7 (DIAMOND ++ lit " Ready")
                  (lit "done") (Some 5)
                  (world0 {[ 7%N := {| state := Unknown; hwnd := Some 5 |} ]})
                  {| state := Unknown; hwnd := Some 5 |}));
    try reflexivity; try discriminate.
  now left.
Defined.

(** C5 as stated (every title with a Ready marker) fails: a Ready marker in
    the title does not keep an Unknown target silent when the text has an
    AwaitingInput marker; the first rule notifies and moves it to
    AwaitingInput. *)
Lemma ready_title_unknown_still_notifies :
  ready_markers (DIAMOND ++ lit " Ready") = true /\
  classify 7 (DIAMOND ++ lit " Ready") (Some (lit "Action Required")) (Some 5) Unknown =
    [CallShowNotification (lit "Gemini CLI") (ActionRequired 7) (Some 5);
     AssignState AwaitingInput] /\
  classify_target (platform_with []) 7 (DIAMOND ++ lit " Ready")
    (Some (lit "Action Required")) (Some 5)
    (world0 {[ 7%N := {| state := Unknown; hwnd := Some 5 |} ]}) =
  (Return tt,
   after (world0 ∅)
     [LogNotification (lit "Gemini CLI") (ActionRequired 7);
      Toast (lit "Gemini CLI") (ActionRequired 7) (lit "Gemini CLI") 5]
     {[ 7%N := {| state := AwaitingInput; hwnd := Some 5 |} ]}).
Proof. repeat split; reflexivity. Qed.

(** C6, amended to what the classifier does. An AwaitingInput target whose
    text still has an AwaitingInput marker is left alone; so is a HighDemand
    target whose text still has the HighDemand markers and no AwaitingInput
    marker; and classifying twice in a row with the same input does nothing
    the second time. *)
Theorem no_duplicate_notification (P : platform) (pid : N) (title content : str)
    (h : option Z) (w : world) (info : target) :
  (targets w !! pid = Some info ->
   state info = AwaitingInput ->
   awaiting_input_markers content = true ->
   classify_target P pid title (Some content) h w = (Return tt, w)) /\
  (targets w !! pid = Some info ->
   state info = HighDemand ->
   high_demand_markers content = true ->
   awaiting_input_markers content = false ->
   classify_target P pid title (Some content) h w = (Return tt, w)) /\
  (forall c last_state,
     classify pid title c h
       (state_after last_state (classify pid title c h last_state)) = []).
Proof.
  split; [| split].
  - intros Hinfo Hst Hai. apply (classify_target_idle P _ _ _ _ _ info Hinfo).
    rewrite classify_rules by now apply awaiting_input_markers_nonempty.
    now rewrite Hai, Hst.
  - intros Hinfo Hst Hhd Hai. apply (classify_target_idle P _ _ _ _ _ info Hinfo).
    rewrite classify_rules by now apply high_demand_markers_nonempty.
    now rewrite Hai, Hhd, Hst.
  - intros c last_state. unfold classify.
    destruct (truthy c); [| reflexivity].
    destruct (awaiting_input_markers _); [destruct last_state; reflexivity |].
    destruct (high_demand_markers _); [destruct last_state; reflexivity |].
    destruct (working_markers title); [destruct last_state; reflexivity |].
    destruct (ready_markers title); destruct last_state; reflexivity.
Qed.

Lemma no_duplicate_notification_witness :
  classify_target (platform_with []) 7 (lit "Gemini")
    (Some (lit "Keep trying? Stop")) (Some 5)
    (world0 {[ 7%N := {| state := HighDemand; hwnd := Some 5 |} ]}) =
  (Return tt, world0 {[ 7%N := {| state := HighDemand; hwnd := Some 5 |} ]}).
Proof.
  apply (proj1 (proj2 (no_duplicate_notification (platform_with []) 7 (lit "Gemini")
                  (lit "Keep trying? Stop") (Some 5)
                  (world0 {[ 7%N := {| state := HighDemand; hwnd := Some 5 |} ]})
                  {| state := HighDemand; hwnd := Some 5 |})));
    reflexivity.
Defined.

(** C6 as stated fails for HighDemand: with the HighDemand markers still on
    screen, an AwaitingInput marker next to them makes the first rule notify
    and move the target. *)
Lemma high_demand_target_notified_again :
  high_demand_markers (lit "Keep trying? Stop. Action Required") = true /\
  classify_target (platform_with []) 7 (lit "Gemini")
    (Some (lit "Keep trying? Stop. Action Required")) (Some 5)
    (world0 {[ 7%N := {| state := HighDemand; hwnd := Some 5 |} ]}) =
  (Return tt,
   after (world0 ∅)
     [LogNotification (lit "Gemini CLI") (ActionRequired 7);
      Toast (lit "Gemini CLI") (ActionRequired 7) (lit "Gemini CLI") 5]
     {[ 7%N := {| state := AwaitingInput; hwnd := Some 5 |} ]}).
Proof. repeat split; reflexivity. Qed.

(** * Facts about reading, discovery and monitoring *)

(** The three ways a read ends. *)
Lemma read_console_buffer_cases P pid w :
  (console_of P pid = None /\
   read_console_buffer P pid w = (Return (None, None, None), restored w)) \/
  (exists ci, console_of P pid = Some ci /\ zero_width ci = false /\
     read_console_buffer P pid w =
       (Return (Some (con_title ci), Some (content_of ci), Some (con_hwnd ci)),
        restored w)) \/
  (exists ci, console_of P pid = Some ci /\ zero_width ci = true /\
     read_console_buffer P pid w = (Raise ZeroDivisionError, stranded pid w)).
Proof.
  destruct (console_of P pid) as [ci|] eqn:Hc.
  - destruct (zero_width ci) eqn:Hz.
    + right; right. exists ci.
      split; [reflexivity | split; [assumption |]].
      apply (read_console_buffer_zero_width P pid ci); assumption.
    + right; left. exists ci.
      split; [reflexivity | split; [assumption |]].
      apply (read_console_buffer_attached P pid ci); assumption.
  - left. split; [reflexivity |]. now apply read_console_buffer_attach_failed.
Qed.

(** A read touches neither [targets] nor what was written. *)
Lemma read_console_buffer_frame P pid w r w1 :
  read_console_buffer P pid w = (r, w1) ->
  targets w1 = targets w /\ output w1 = output w.
Proof.
  intros Hread.
  destruct (read_console_buffer_cases P pid w)
    as [[_ H] | [[ci [_ [_ H]]] | [ci [_ [_ H]]]]];
    rewrite H in Hread; injection Hread as _ <-; split; reflexivity.
Qed.

(** X1: a read that returns its triple, after a failed attach as after a
    successful one, has put the watchdog's own console and streams back. *)
Lemma read_console_buffer_return_restores P pid w r w1 :
  read_console_buffer P pid w = (Return r, w1) ->
  console w1 = OwnConsole /\ stdout w1 = Conout /\ stderr w1 = Conout.
Proof.
  intros Hread.
  destruct (read_console_buffer_cases P pid w)
    as [[_ H] | [[ci [_ [_ H]]] | [ci [_ [_ H]]]]];
    rewrite H in Hread; [| | discriminate];
    injection Hread as _ <-; repeat split; reflexivity.
Qed.

Lemma read_console_buffer_return_restores_witness :
  console (restored (world0 ∅)) = OwnConsole /\
  stdout (restored (world0 ∅)) = Conout /\
  stderr (restored (world0 ∅)) = Conout.
Proof.
  apply (read_console_buffer_return_restores (platform_with []) 7 (world0 ∅)
           (None, None, None)).
  reflexivity.
Defined.

(** C2 (the own console is restored on every exit path) does not hold on
    the path of a screen buffer reported zero cells wide: [start_idx // width]
    raises while the target's console is attached, and the read ends there,
    with neither the own console nor the streams put back; the [except] of
    either loop then swallows the exception and goes on in that state. *)
Theorem zero_width_buffer_strands_console :
  read_console_buffer (platform_with [(7%N, zero_width_console)]) 7 (world0 ∅) =
    (Raise ZeroDivisionError, stranded 7 (world0 ∅)) /\
  console (stranded 7 (world0 ∅)) = TargetConsole 7 /\
  stdout (stranded 7 (world0 ∅)) = Inherited /\
  discover_candidate (platform_with [(7%N, zero_width_console)]) ∅ 7 (world0 ∅) =
    (Return ∅, stranded 7 (world0 ∅)) /\
  monitor_target (platform_with [(7%N, zero_width_console)]) 7
    (world0 {[ 7%N := {| state := Working; hwnd := Some 55 |} ]}) =
    (Return tt,
     after (stranded 7 (world0 {[ 7%N := {| state := Working; hwnd := Some 55 |} ]}))
       [LogErrorChecking 7 ZeroDivisionError]
       {[ 7%N := {| state := Working; hwnd := Some 55 |} ]}).
Proof. repeat split; reflexivity. Qed.

(** C3, amended to what the main loop does: after a successful attach with
    an unreadable screen buffer the content is empty, the [if content:]
    block is skipped with the title rules inside it, and monitoring the
    target changes neither its state nor what was written, whatever the
    title. *)
Theorem unreadable_buffer_skips_classification (P : platform) (pid : N)
    (ci : console_info) (w : world) (info : target) :
  console_of P pid = Some ci ->
  zero_width ci = false ->
  con_csbi ci = None \/ con_readable ci = false ->
  targets w !! pid = Some info ->
  read_console_buffer P pid w =
    (Return (Some (con_title ci), Some [], Some (con_hwnd ci)), restored w) /\
  (forall title h last_state, classify pid title (Some []) h last_state = []) /\
  monitor_target P pid w = (Return tt, restored w) /\
  targets (restored w) = targets w /\
  output (restored w) = output w.
Proof.
  intros Hc Hz Hbad Hinfo.
  assert (Hcontent : content_of ci = []).
  { unfold content_of. destruct Hbad as [-> | Hr]; [reflexivity |].
    destruct (con_csbi ci) as [[? ?]|]; [now rewrite Hr | reflexivity]. }
  assert (Hread : read_console_buffer P pid w =
            (Return (Some (con_title ci), Some [], Some (con_hwnd ci)), restored w)).
  { rewrite (read_console_buffer_attached P pid ci w Hc Hz). now rewrite Hcontent. }
  split; [exact Hread |]. split; [reflexivity |]. split; [| split; reflexivity].
  unfold monitor_target, try_except, bind. rewrite Hread.
  now rewrite (classify_target_idle P pid _ _ _ (restored w) info Hinfo).
Qed.

Lemma unreadable_buffer_skips_classification_witness :
  monitor_target (platform_with [(7%N, unreadable_console)]) 7
    (world0 {[ 7%N := {| state := Unknown; hwnd := Some 55 |} ]}) =
  (Return tt, restored (world0 {[ 7%N := {| state := Unknown; hwnd := Some 55 |} ]})).
Proof.
  apply (unreadable_buffer_skips_classification
           (platform_with [(7%N, unreadable_console)]) 7 unreadable_console
           (world0 {[ 7%N := {| state := Unknown; hwnd := Some 55 |} ]})
           {| state := Unknown; hwnd := Some 55 |});
    try reflexivity.
  now left.
Defined.

(** C3 as stated (title rules still evaluated on empty content) fails: the
    buffer is unreadable, the title has the Working marker, and the target
    stays Unknown; the same title over a non-empty text would have made it
    Working. *)
Lemma working_title_ignored_on_empty_content :
  fst (read_console_buffer (platform_with [(7%N, unreadable_console)]) 7
         (world0 {[ 7%N := {| state := Unknown; hwnd := Some 55 |} ]})) =
    Return (Some (STAR ++ lit " Working"), Some [], Some 55) /\
  working_markers (STAR ++ lit " Working") = true /\
  targets (snd (monitor_target (platform_with [(7%N, unreadable_console)]) 7
                  (world0 {[ 7%N := {| state := Unknown; hwnd := Some 55 |} ]})))
    !! 7%N = Some {| state := Unknown; hwnd := Some 55 |} /\
  classify 7 (STAR ++ lit " Working") (Some (lit " ")) (Some 55) Unknown =
    [AssignState Working].
Proof. repeat split; reflexivity. Qed.

(** One candidate whose read returned a title. *)
Lemma discover_candidate_read P tracked pid w title content h w1 :
  pid <> getpid P ->
  read_console_buffer P pid w = (Return (Some title, content, h), w1) ->
  discover_candidate P tracked pid w =
    if truthy_hwnd h && bool_decide (h ∈ tracked) then (Return tracked, w1)
    else if title_matches P title then
      (Return ({[h]} ∪ tracked),
       after w1 [] (<[pid := {| state := Unknown; hwnd := h |}]> (targets w1)))
    else (Return tracked, w1).
Proof.
  intros Hself Hread. unfold discover_candidate.
  apply N.eqb_neq in Hself. rewrite Hself.
  unfold try_except, bind. rewrite Hread.
  destruct (truthy_hwnd h && bool_decide (h ∈ tracked)); [reflexivity |].
  destruct (title_matches P title); [| reflexivity].
  unfold get_targets, put_targets, ret, after. cbn. now rewrite app_nil_r.
Qed.

(** C4, amended to what discovery does: a candidate that was read is
    promoted exactly when a CLI marker is in its console title and its
    handle is not a present handle already tracked; the screen content plays
    no part. *)
Theorem promoted_by_title_only (P : platform) (tracked : gset (option Z))
    (pid : N) (w : world) (title : str) (content : option str) (h : option Z)
    (w1 : world) :
  pid <> getpid P ->
  targets w !! pid = None ->
  read_console_buffer P pid w = (Return (Some title, content, h), w1) ->
  (is_Some (targets (snd (discover_candidate P tracked pid w)) !! pid) <->
   title_matches P title = true /\ ~ (truthy_hwnd h = true /\ h ∈ tracked)) /\
  (title_matches P title = true ->
   ~ (truthy_hwnd h = true /\ h ∈ tracked) ->
   discover_candidate P tracked pid w =
     (Return ({[h]} ∪ tracked),
      after w1 [] (<[pid := {| state := Unknown; hwnd := h |}]> (targets w1)))).
Proof.
  intros Hself Hnew Hread.
  pose proof (read_console_buffer_frame P pid w _ w1 Hread) as [Ht _].
  rewrite (discover_candidate_read P tracked pid w title content h w1 Hself Hread).
  destruct (truthy_hwnd h) eqn:Htruthy; cbn [andb].
  - destruct (bool_decide (h ∈ tracked)) eqn:Hin.
    + apply bool_decide_eq_true in Hin. split.
      * cbn. rewrite Ht, Hnew. split.
        -- intros [x Hx]. discriminate.
        -- intros [_ Hno]. exfalso. apply Hno. now split.
      * intros _ Hno. exfalso. apply Hno. now split.
    + apply bool_decide_eq_false in Hin.
      destruct (title_matches P title); split.
      * cbn. rewrite lookup_insert_eq. split; [| now eexists].
        intros _. split; [reflexivity |]. intros [_ Hno]. now apply Hin.
      * reflexivity.
      * cbn. rewrite Ht, Hnew. split; [intros [x Hx]; discriminate |].
        intros [Hm _]. discriminate.
      * discriminate.
  - destruct (title_matches P title); split.
    + cbn. rewrite lookup_insert_eq. split; [| now eexists].
      intros _. split; [reflexivity |]. intros [Hno _]. discriminate.
    + reflexivity.
    + cbn. rewrite Ht, Hnew. split; [intros [x Hx]; discriminate |].
      intros [Hm _]. discriminate.
    + discriminate.
Qed.

Lemma promoted_by_title_only_witness :
  discover_candidate (platform_with [(7%N, wide_console)]) ∅ 7 (world0 ∅) =
  (Return ({[Some 55]} ∪ ∅),
   after (restored (world0 ∅)) []
     (<[7%N := {| state := Unknown; hwnd := Some 55 |}]>
        (targets (restored (world0 ∅))))).
Proof.
  apply (proj2 (promoted_by_title_only (platform_with [(7%N, wide_console)]) ∅ 7
                  (world0 ∅) (lit "Gemini") (Some (content_of wide_console))
                  (Some 55) (restored (world0 ∅))
                  ltac:(discriminate) ltac:(reflexivity)
                  (read_console_buffer_attached (platform_with [(7%N, wide_console)])
                     7 wide_console (world0 ∅) eq_refl eq_refl))).
  - reflexivity.
  - intros [_ Hin]. apply not_elem_of_empty in Hin. exact Hin.
Defined.

(** C4 as stated (a marker in the screen content suffices) fails: the
    marker is on the screen only, the handle is not tracked, and the
    candidate is not promoted. *)
Lemma content_marker_does_not_promote :
  fst (read_console_buffer (platform_with [(7%N, shell_console)]) 7 (world0 ∅)) =
    Return (Some (lit "Windows PowerShell"), Some (lit "gemini-cli"), Some 55) /\
  str_in (lit "gemini") (ascii_lower (lit "gemini-cli")) = true /\
  tracked_hwnds_of (targets (world0 ∅)) = ∅ /\
  targets (snd (discover (platform_with [(7%N, shell_console)]) [7%N] (world0 ∅)))
    = ∅.
Proof. repeat split; reflexivity. Qed.

(** The set built before discovery holds present handles only. *)
Lemma tracked_hwnds_of_truthy (t : gmap N target) (h : option Z) :
  h ∈ tracked_hwnds_of t -> truthy_hwnd h = true.
Proof.
  unfold tracked_hwnds_of. rewrite elem_of_list_to_set, list_elem_of_In.
  intros Hin. apply filter_In in Hin. tauto.
Qed.

(** A candidate that was read with a matching title and an absent handle is
    promoted whatever the set holds. *)
Lemma discover_candidate_absent P tracked pid w title content h w1 :
  pid <> getpid P ->
  read_console_buffer P pid w = (Return (Some title, content, h), w1) ->
  truthy_hwnd h = false ->
  title_matches P title = true ->
  discover_candidate P tracked pid w =
    (Return ({[h]} ∪ tracked),
     after w1 [] (<[pid := {| state := Unknown; hwnd := h |}]> (targets w1))).
Proof.
  intros Hself Hread Habsent Hmatch.
  rewrite (discover_candidate_read P tracked pid w title content h w1 Hself Hread).
  now rewrite Habsent, Hmatch.
Qed.

(** C9: the set of tracked handles holds present handles only; a candidate
    read with an absent handle and a matching title is promoted whatever the
    set holds; and so two candidates without a console window both become
    targets in one discovery pass. *)
Theorem absent_handles_not_deduplicated (P : platform) :
  (forall (t : gmap N target) (h : option Z),
     h ∈ tracked_hwnds_of t -> truthy_hwnd h = true) /\
  (forall tracked pid w title content h w1,
     pid <> getpid P ->
     read_console_buffer P pid w = (Return (Some title, content, h), w1) ->
     truthy_hwnd h = false ->
     title_matches P title = true ->
     discover_candidate P tracked pid w =
       (Return ({[h]} ∪ tracked),
        after w1 [] (<[pid := {| state := Unknown; hwnd := h |}]> (targets w1)))) /\
  (forall p1 p2 c1 c2 w,
     p1 <> p2 -> p1 <> getpid P -> p2 <> getpid P ->
     console_of P p1 = Some c1 -> console_of P p2 = Some c2 ->
     zero_width c1 = false -> zero_width c2 = false ->
     con_hwnd c1 = 0 -> con_hwnd c2 = 0 ->
     title_matches P (con_title c1) = true ->
     title_matches P (con_title c2) = true ->
     exists tracked' w',
       discover P [p1; p2] w = (Return tracked', w') /\
       targets w' !! p1 = Some {| state := Unknown; hwnd := Some 0 |} /\
       targets w' !! p2 = Some {| state := Unknown; hwnd := Some 0 |}).
Proof.
  split; [exact tracked_hwnds_of_truthy |].
  split; [exact (discover_candidate_absent P) |].
  intros p1 p2 c1 c2 w Hne H1 H2 Hc1 Hc2 Hz1 Hz2 Hh1 Hh2 Hm1 Hm2.
  unfold discover, bind, get_targets. cbn [discover_loop]. unfold bind.
  rewrite (discover_candidate_absent P _ p1 w (con_title c1)
             (Some (content_of c1)) (Some 0) (restored w)); try assumption;
    [| rewrite <- Hh1; now apply read_console_buffer_attached | reflexivity].
  rewrite (discover_candidate_absent P _ p2 _ (con_title c2)
             (Some (content_of c2)) (Some 0) (restored (after (restored w) []
                (<[p1 := {| state := Unknown; hwnd := Some 0 |}]>
                   (targets (restored w)))))); try assumption;
    [| rewrite <- Hh2; now apply read_console_buffer_attached | reflexivity].
  eexists _, _. split; [reflexivity |]. cbn. split.
  - rewrite lookup_insert_ne by congruence. apply lookup_insert_eq.
  - apply lookup_insert_eq.
Qed.

Lemma absent_handles_not_deduplicated_witness :
  exists tracked' w',
    discover (platform_with [(7%N, windowless_console); (8%N, windowless_console)])
      [7%N; 8%N] (world0 ∅) = (Return tracked', w') /\
    targets w' !! 7%N = Some {| state := Unknown; hwnd := Some 0 |} /\
    targets w' !! 8%N = Some {| state := Unknown; hwnd := Some 0 |}.
Proof.
  apply (proj2 (proj2 (absent_handles_not_deduplicated
           (platform_with [(7%N, windowless_console); (8%N, windowless_console)])))
           7%N 8%N windowless_console windowless_console (world0 ∅));
    try reflexivity; discriminate.
Defined.

(** * Facts about the rest of the code *)

(** ** [is_window_active] *)

(** X2: a handle counts as focused exactly when it is present, the
    foreground window is not minimised, and either the handle is the
    foreground window or the foreground title carries a CLI marker. *)
Theorem is_window_active_iff (P : platform) (hwnd : option Z) :
  is_window_active P hwnd = true <->
  exists h, hwnd = Some h /\ h <> 0 /\
            iconic P (foreground P) = false /\
            (h = foreground P \/ foreground_marked P = true).
Proof.
  unfold is_window_active, foreground_marked. split.
  - destruct hwnd as [h|]; [| discriminate].
    destruct (h =? 0) eqn:H0; [discriminate |]. apply Z.eqb_neq in H0.
    destruct (h =? foreground P) eqn:Hfg.
    + apply Z.eqb_eq in Hfg. rewrite negb_true_iff. intros Hic.
      exists h. rewrite <- Hfg. auto.
    + cbv zeta.
      destruct (_ || _ || _) eqn:Hm; [| discriminate].
      rewrite negb_true_iff. intros Hic. exists h. auto.
  - intros [h [-> [H0 [Hic Hor]]]]. apply Z.eqb_neq in H0. rewrite H0.
    destruct (h =? foreground P) eqn:Hfg.
    + apply Z.eqb_eq in Hfg. now rewrite Hfg, Hic.
    + apply Z.eqb_neq in Hfg. destruct Hor as [Heq | Hm]; [contradiction |].
      cbv zeta. cbv zeta in Hm. now rewrite Hm, Hic.
Qed.

(** ** [read_console_buffer] *)

Lemma buffer_value_bounds buffer :
  (length (buffer_value buffer) <= length buffer)%nat /\
  Forall (fun c => c <> 0%N) (buffer_value buffer).
Proof.
  induction buffer as [|c rest [IHl IHn]]; cbn; [split; [lia | constructor] |].
  destruct (c =? 0)%N eqn:Hc; cbn; [split; [lia | constructor] |].
  apply N.eqb_neq in Hc. split; [lia | now constructor].
Qed.

Lemma cells_from_length cells width coord n :
  (length (cells_from cells width coord n) <= Z.to_nat n)%nat.
Proof.
  unfold cells_from. destruct (_ && _); [| cbn; lia].
  rewrite length_take. lia.
Qed.

Lemma content_of_bounds ci :
  (length (content_of ci) <= Z.to_nat read_len)%nat /\
  Forall (fun c => c <> 0%N) (content_of ci).
Proof.
  unfold content_of.
  destruct (con_csbi ci) as [[width height]|]; [| cbn; split; [lia | constructor]].
  destruct (con_readable ci); [| cbn; split; [lia | constructor]].
  cbv zeta.
  set (chars := cells_from _ _ _ _).
  rewrite buffer_value_nul_padding by apply create_unicode_buffer_nul.
  destruct (buffer_value_bounds chars) as [Hl Hn]. split; [| exact Hn].
  pose proof (cells_from_length (con_cells ci) width
                (mkCOORD (start_idx width height `mod` width)
                         (start_idx width height `div` width)) read_len).
  fold chars in H. lia.
Qed.

(** X3: whatever the console holds, the content a read returns has at
    most 8000 characters and no NUL among them. *)
Theorem read_content_bounded (P : platform) (pid : N) (w w1 : world)
    (title : option str) (content : str) (h : option Z) :
  read_console_buffer P pid w = (Return (title, Some content, h), w1) ->
  (length content <= Z.to_nat read_len)%nat /\
  Forall (fun c => c <> 0%N) content.
Proof.
  intros Hread.
  destruct (read_console_buffer_cases P pid w)
    as [[_ H] | [[ci [_ [_ H]]] | [ci [_ [_ H]]]]];
    rewrite H in Hread; [discriminate | | discriminate].
  injection Hread as _ <- _ _.
  apply content_of_bounds.
Qed.

Lemma read_content_bounded_witness :
  (length (content_of wide_console) <= Z.to_nat read_len)%nat /\
  Forall (fun c => c <> 0%N) (content_of wide_console).
Proof.
  apply (read_content_bounded (platform_with [(7%N, wide_console)]) 7 (world0 ∅)
           (restored (world0 ∅)) (Some (con_title wide_console))
           (content_of wide_console) (Some (con_hwnd wide_console))).
  apply read_console_buffer_attached; reflexivity.
Defined.

(** X4: a read starts by freeing whatever console is attached, so its
    result and the console it leaves do not depend on the state a previous
    read left behind; and the triple of [None]s is returned exactly when the
    attach failed. *)
Theorem read_console_buffer_stateless (P : platform) (pid : N) (w w' : world) :
  fst (read_console_buffer P pid w) = fst (read_console_buffer P pid w') /\
  console (snd (read_console_buffer P pid w)) =
    console (snd (read_console_buffer P pid w')) /\
  (fst (read_console_buffer P pid w) = Return (None, None, None) <->
   console_of P pid = None).
Proof.
  destruct (read_console_buffer_cases P pid w)
    as [[Hc H] | [[ci [Hc [Hz H]]] | [ci [Hc [Hz H]]]]]; rewrite H.
  - rewrite (read_console_buffer_attach_failed P pid w' Hc). cbn. tauto.
  - rewrite (read_console_buffer_attached P pid ci w' Hc Hz). cbn.
    repeat split; try reflexivity; [discriminate | congruence].
  - rewrite (read_console_buffer_zero_width P pid ci w' Hc Hz). cbn.
    repeat split; try reflexivity; [discriminate | congruence].
Qed.

(** ** Monitoring one target *)

Lemma monitor_target_attach_failed P pid w :
  console_of P pid = None ->
  monitor_target P pid w = (Return tt, restored w).
Proof.
  intros Hc. unfold monitor_target, try_except, bind.
  now rewrite (read_console_buffer_attach_failed P pid w Hc).
Qed.

Lemma monitor_target_zero_width P pid ci w :
  console_of P pid = Some ci ->
  zero_width ci = true ->
  monitor_target P pid w =
    (Return tt,
     after (stranded pid w) [LogErrorChecking pid ZeroDivisionError] (targets w)).
Proof.
  intros Hc Hz. unfold monitor_target, try_except, bind.
  now rewrite (read_console_buffer_zero_width P pid ci w Hc Hz).
Qed.

Lemma monitor_target_untracked P pid ci w :
  console_of P pid = Some ci ->
  zero_width ci = false ->
  targets w !! pid = None ->
  monitor_target P pid w =
    (Return tt, after (restored w) [LogErrorChecking pid KeyError] (targets w)).
Proof.
  intros Hc Hz Hnone. unfold monitor_target, try_except, bind.
  rewrite (read_console_buffer_attached P pid ci w Hc Hz).
  unfold classify_target, bind, get_targets. cbn. now rewrite Hnone.
Qed.

Lemma monitor_target_tracked P pid ci w info :
  console_of P pid = Some ci ->
  zero_width ci = false ->
  targets w !! pid = Some info ->
  let acts := classify pid (con_title ci) (Some (content_of ci))
                (Some (con_hwnd ci)) (state info) in
  monitor_target P pid w =
    (Return tt,
     after (restored w) (events_of P acts)
       (<[pid := {| state := state_after (state info) acts; hwnd := hwnd info |}]>
          (targets w))).
Proof.
  intros Hc Hz Hinfo acts. unfold monitor_target, try_except, bind.
  rewrite (read_console_buffer_attached P pid ci w Hc Hz).
  now rewrite (classify_target_run P pid _ _ _ (restored w) info Hinfo).
Qed.

(** X5: what goes wrong while one target is monitored stays with that
    target.  A failed attach is passed over in silence; a zero-width buffer
    and a pid that is not in [targets] are each logged with the pid and the
    exception; in all three cases [targets] is as before. *)
Theorem monitor_target_failures (P : platform) (pid : N) (w : world) :
  (console_of P pid = None ->
   monitor_target P pid w = (Return tt, restored w)) /\
  (forall ci, console_of P pid = Some ci -> zero_width ci = true ->
   monitor_target P pid w =
     (Return tt,
      after (stranded pid w) [LogErrorChecking pid ZeroDivisionError] (targets w))) /\
  (forall ci, console_of P pid = Some ci -> zero_width ci = false ->
   targets w !! pid = None ->
   monitor_target P pid w =
     (Return tt, after (restored w) [LogErrorChecking pid KeyError] (targets w))).
Proof.
  split; [apply monitor_target_attach_failed |].
  split; intros ci; [apply monitor_target_zero_width | apply monitor_target_untracked].
Qed.

Lemma monitor_target_failures_witness :
  monitor_target (platform_with [(7%N, wide_console)]) 7 (world0 ∅) =
  (Return tt, after (restored (world0 ∅)) [LogErrorChecking 7 KeyError] ∅).
Proof.
  apply (proj2 (proj2 (monitor_target_failures (platform_with [(7%N, wide_console)])
                         7 (world0 ∅))) wide_console);
    reflexivity.
Defined.

(** Monitoring returns, and what it leaves of [targets]. *)
Lemma monitor_target_effect P pid w :
  exists w', monitor_target P pid w = (Return tt, w') /\
    (targets w' = targets w \/
     exists info s,
       targets w !! pid = Some info /\
       targets w' = <[pid := {| state := s; hwnd := hwnd info |}]> (targets w) /\
       s <> Unknown /\
       (s = Ready -> state info = Working \/ state info = AwaitingInput)).
Proof.
  destruct (console_of P pid) as [ci|] eqn:Hc.
  2: { eexists. split; [now apply monitor_target_attach_failed | now left]. }
  destruct (zero_width ci) eqn:Hz.
  { eexists. split; [now apply (monitor_target_zero_width P pid ci) | now left]. }
  destruct (targets w !! pid) as [info|] eqn:Hinfo.
  2: { eexists. split; [now apply (monitor_target_untracked P pid ci) | now left]. }
  eexists. split; [now apply (monitor_target_tracked P pid ci w info) |].
  cbn [targets after].
  destruct (classify_shape pid (con_title ci) (Some (content_of ci))
              (Some (con_hwnd ci)) (state info))
    as [Hs | [[Hs _] | [msg [s [Hs [_ Hcase]]]]]];
    cbv zeta in Hs; rewrite Hs; cbn [state_after fold_left].
  - left. apply insert_id. destruct info; exact Hinfo.
  - right. exists info, Working. repeat split; try reflexivity; discriminate.
  - right. exists info, s. split; [reflexivity |]. split; [reflexivity |].
    destruct Hcase as [[_ ->] | [[_ ->] | [_ [-> [Hlast _]]]]];
      split; try discriminate; auto.
Qed.

(** X6: monitoring one target never raises, touches no other target, and
    neither adds nor removes the target itself nor changes its stored
    handle: only its state can change. *)
Theorem monitor_target_frame (P : platform) (pid : N) (w : world) :
  exists w', monitor_target P pid w = (Return tt, w') /\
    (forall q, q <> pid -> targets w' !! q = targets w !! q) /\
    hwnd <$> (targets w' !! pid) = hwnd <$> (targets w !! pid).
Proof.
  destruct (monitor_target_effect P pid w)
    as [w' [Hrun [Heq | [info [s [Hinfo [Heq _]]]]]]];
    exists w'; (split; [exact Hrun |]); rewrite Heq.
  - split; reflexivity.
  - split.
    + intros q Hq. now rewrite lookup_insert_ne by congruence.
    + now rewrite lookup_insert_eq, Hinfo.
Qed.

(** X7: monitoring never puts a target back to Unknown, and makes it Ready
    only from Working or AwaitingInput (or leaves it Ready). *)
Theorem monitor_target_transitions (P : platform) (pid : N) (w : world)
    (info info' : target) :
  targets w !! pid = Some info ->
  targets (snd (monitor_target P pid w)) !! pid = Some info' ->
  (state info' = Unknown -> state info = Unknown) /\
  (state info' = Ready ->
   state info = Ready \/ state info = Working \/ state info = AwaitingInput).
Proof.
  intros Hinfo Hinfo'.
  destruct (monitor_target_effect P pid w)
    as [w' [Hrun [Heq | [i [s [Hi [Heq [Hne Hready]]]]]]]];
    rewrite Hrun in Hinfo'; cbn [snd] in Hinfo'; rewrite Heq in Hinfo'.
  - rewrite Hinfo in Hinfo'. injection Hinfo' as <-. auto.
  - rewrite lookup_insert_eq in Hinfo'. injection Hinfo' as <-. cbn.
    rewrite Hinfo in Hi. injection Hi as <-.
    split; [intros ->; contradiction | intros Hs; right; auto].
Qed.

Lemma monitor_target_transitions_witness :
  (Ready = Unknown -> Working = Unknown) /\
  (Ready = Ready -> Working = Ready \/ Working = Working \/ Working = AwaitingInput).
Proof.
  apply (monitor_target_transitions (platform_with [(7%N, ready_console)]) 7
           (world0 {[ 7%N := {| state := Working; hwnd := Some 55 |} ]})
           {| state := Working; hwnd := Some 55 |}
           {| state := Ready; hwnd := Some 55 |});
    reflexivity.
Defined.

(** ** Discovery *)

(** The set built before discovery holds every present handle of a target. *)
Lemma tracked_hwnds_of_complete (t : gmap N target) p i :
  t !! p = Some i -> truthy_hwnd (hwnd i) = true -> hwnd i ∈ tracked_hwnds_of t.
Proof.
  intros Hp Htruthy. unfold tracked_hwnds_of.
  rewrite elem_of_list_to_set, list_elem_of_In. apply filter_In.
  split; [| exact Htruthy]. apply list_elem_of_In.
  apply list_elem_of_fmap. exists i. split; [reflexivity |].
  apply list_elem_of_fmap. exists (p, i). split; [reflexivity |].
  now apply elem_of_map_to_list.
Qed.

(** One candidate: it is either passed over or promoted. *)
Lemma discover_candidate_effect P tracked pid w :
  exists tracked' w',
    discover_candidate P tracked pid w = (Return tracked', w') /\
    output w' = output w /\
    ((tracked' = tracked /\ targets w' = targets w) \/
     (exists ci,
        pid <> getpid P /\ console_of P pid = Some ci /\
        title_matches P (con_title ci) = true /\
        ~ (truthy_hwnd (Some (con_hwnd ci)) = true /\ Some (con_hwnd ci) ∈ tracked) /\
        tracked' = {[Some (con_hwnd ci)]} ∪ tracked /\
        targets w' =
          <[pid := {| state := Unknown; hwnd := Some (con_hwnd ci) |}]> (targets w))).
Proof.
  destruct (N.eqb_spec pid (getpid P)) as [Hself | Hself].
  { exists tracked, w. unfold discover_candidate.
    rewrite (proj2 (N.eqb_eq _ _) Hself). auto. }
  destruct (read_console_buffer_cases P pid w)
    as [[Hc H] | [[ci [Hc [Hz H]]] | [ci [Hc [Hz H]]]]].
  - exists tracked, (restored w). unfold discover_candidate.
    rewrite (proj2 (N.eqb_neq _ _) Hself). unfold try_except, bind.
    rewrite H. cbn. auto.
  - rewrite (discover_candidate_read P tracked pid w _ _ _ _ Hself H).
    destruct (truthy_hwnd (Some (con_hwnd ci))) eqn:Htruthy; cbn [andb].
    + destruct (bool_decide (Some (con_hwnd ci) ∈ tracked)) eqn:Hin.
      { exists tracked, (restored w). auto. }
      apply bool_decide_eq_false in Hin.
      destruct (title_matches P (con_title ci)) eqn:Hm.
      2: { exists tracked, (restored w). auto. }
      eexists _, _. split; [reflexivity |]. split; [cbn; apply app_nil_r |].
      right. exists ci. repeat split; try assumption; try reflexivity.
      intros [_ Hno]. contradiction.
    + destruct (title_matches P (con_title ci)) eqn:Hm.
      2: { exists tracked, (restored w). auto. }
      eexists _, _. split; [reflexivity |]. split; [cbn; apply app_nil_r |].
      right. exists ci. repeat split; try assumption; try reflexivity.
      intros [Hno _]. congruence.
  - exists tracked, (stranded pid w). unfold discover_candidate.
    rewrite (proj2 (N.eqb_neq _ _) Hself). unfold try_except, bind.
    rewrite H. cbn. auto.
Qed.

Lemma discover_candidate_invariant P tracked pid w tracked' w' :
  discover_candidate P tracked pid w = (Return tracked', w') ->
  handles_unique (targets w) -> tracked_covers (targets w) tracked ->
  handles_unique (targets w') /\ tracked_covers (targets w') tracked'.
Proof.
  intros Hrun Huniq Hcov.
  destruct (discover_candidate_effect P tracked pid w)
    as [tr [w1 [Hrun1 [_ Hcase]]]].
  rewrite Hrun in Hrun1. injection Hrun1 as <- <-.
  destruct Hcase as [[-> ->] | [ci [_ [_ [_ [Hfree [-> ->]]]]]]]; [now split |].
  set (h := Some (con_hwnd ci)) in *.
  split.
  - intros p q i j Hp Hq Htruthy Heq.
    destruct (decide (p = pid)) as [-> | Hpne];
      destruct (decide (q = pid)) as [-> | Hqne]; [reflexivity | | |].
    + rewrite lookup_insert_eq in Hp. injection Hp as <-.
      rewrite lookup_insert_ne in Hq by congruence. cbn in Htruthy, Heq.
      exfalso. apply Hfree. split; [exact Htruthy |].
      rewrite Heq. apply (Hcov q j Hq). now rewrite <- Heq.
    + rewrite lookup_insert_eq in Hq. injection Hq as <-.
      rewrite lookup_insert_ne in Hp by congruence. cbn in Heq.
      exfalso. apply Hfree. split; [now rewrite <- Heq |].
      rewrite <- Heq. now apply (Hcov p i Hp).
    + rewrite lookup_insert_ne in Hp, Hq by congruence.
      now apply (Huniq p q i j).
  - intros p i Hp Htruthy.
    destruct (decide (p = pid)) as [-> | Hpne].
    + rewrite lookup_insert_eq in Hp. injection Hp as <-. cbn. set_solver.
    + rewrite lookup_insert_ne in Hp by congruence.
      apply elem_of_union_r. now apply (Hcov p i Hp).
Qed.

Lemma discover_loop_effect P candidates : forall tracked w,
  exists tracked' w',
    discover_loop P candidates tracked w = (Return tracked', w') /\
    output w' = output w /\
    (handles_unique (targets w) -> tracked_covers (targets w) tracked ->
     handles_unique (targets w')) /\
    (forall q info, targets w !! q = Some info ->
       (~ In q candidates \/ q = getpid P) -> targets w' !! q = Some info) /\
    (forall q, is_Some (targets w !! q) -> is_Some (targets w' !! q)) /\
    (forall q info, targets w' !! q = Some info ->
       targets w !! q = Some info \/ written_for P candidates q info).
Proof.
  induction candidates as [|pid rest IH]; intros tracked w.
  - exists tracked, w. cbn. repeat split; auto.
  - cbn [discover_loop]. unfold bind.
    destruct (discover_candidate_effect P tracked pid w)
      as [tr1 [w1 [Hrun1 [Hout1 Hcase]]]].
    rewrite Hrun1.
    destruct (IH tr1 w1) as [tr2 [w2 [Hrun2 [Hout2 [Hinv2 [Hkeep2 [Hdom2 Hnew2]]]]]]].
    exists tr2, w2. split; [exact Hrun2 |]. split; [congruence |].
    split; [| split; [| split]].
    + intros Huniq Hcov.
      destruct (discover_candidate_invariant P tracked pid w tr1 w1 Hrun1 Huniq Hcov).
      now apply Hinv2.
    + intros q info Hq Hout. apply Hkeep2.
      * destruct Hcase as [[_ ->] | [ci [Hself [_ [_ [_ [_ ->]]]]]]]; [exact Hq |].
        rewrite lookup_insert_ne; [exact Hq |].
        intros <-. destruct Hout as [Hout | Hout]; [apply Hout; now left | contradiction].
      * destruct Hout as [Hout | Hout]; [left; intros Hin; apply Hout; now right | now right].
    + intros q Hq. apply Hdom2.
      destruct Hcase as [[_ ->] | [ci [_ [_ [_ [_ [_ ->]]]]]]]; [exact Hq |].
      destruct (decide (q = pid)) as [-> | Hne].
      * rewrite lookup_insert_eq. now eexists.
      * now rewrite lookup_insert_ne by congruence.
    + intros q info Hq.
      destruct (Hnew2 q info Hq) as [Hold | [Hin [Hself [Hst Hci]]]].
      * destruct Hcase as [[_ Ht] | [ci [Hself [Hc [Hm [_ [_ Ht]]]]]]];
          rewrite Ht in Hold; [now left |].
        destruct (decide (q = pid)) as [-> | Hne].
        -- rewrite lookup_insert_eq in Hold. injection Hold as <-.
           right. split; [now left |]. split; [exact Hself |].
           split; [reflexivity |]. exists ci. auto.
        -- rewrite lookup_insert_ne in Hold by congruence. now left.
      * right. split; [now right |]. auto.
Qed.

(** X8: discovery keeps the console handles unique: if no two targets
    share a present handle before a discovery pass, none do after it. *)
Theorem discover_keeps_handles_unique (P : platform) (candidates : list N)
    (w : world) :
  handles_unique (targets w) ->
  handles_unique (targets (snd (discover P candidates w))).
Proof.
  intros Huniq. unfold discover, bind, get_targets.
  destruct (discover_loop_effect P candidates (tracked_hwnds_of (targets w)) w)
    as [tr [w' [Hrun [_ [Hinv _]]]]].
  rewrite Hrun. cbn [snd]. apply Hinv; [exact Huniq |].
  intros p i. apply tracked_hwnds_of_complete.
Qed.

(** Discovery as a whole: it returns, writes nothing, keeps handles unique
    and only writes entries for candidates. *)
Lemma discover_effect P candidates w :
  exists tracked' w',
    discover P candidates w = (Return tracked', w') /\
    output w' = output w /\
    (handles_unique (targets w) -> handles_unique (targets w')) /\
    (forall q info, targets w !! q = Some info ->
       (~ In q candidates \/ q = getpid P) -> targets w' !! q = Some info) /\
    (forall q, is_Some (targets w !! q) -> is_Some (targets w' !! q)) /\
    (forall q info, targets w' !! q = Some info ->
       targets w !! q = Some info \/ written_for P candidates q info).
Proof.
  unfold discover, bind, get_targets.
  destruct (discover_loop_effect P candidates (tracked_hwnds_of (targets w)) w)
    as [tr [w' [Hrun [Hout [Hinv [Hkeep [Hdom Hnew]]]]]]].
  exists tr, w'. repeat split; auto.
  intros Huniq. apply Hinv; [exact Huniq |].
  intros p i. apply tracked_hwnds_of_complete.
Qed.

(** X9: discovery never raises and writes nothing; it removes no target,
    leaves every entry that is not a candidate's (and the watchdog's own) as
    it was; and every entry it writes is for a candidate other than the
    watchdog, in state Unknown, with the handle of that candidate's console,
    whose title carries a CLI marker. *)
Theorem discover_frame (P : platform) (candidates : list N) (w : world) :
  exists tracked' w',
    discover P candidates w = (Return tracked', w') /\
    output w' = output w /\
    (forall q info, targets w !! q = Some info ->
       (~ In q candidates \/ q = getpid P) -> targets w' !! q = Some info) /\
    (forall q, is_Some (targets w !! q) -> is_Some (targets w' !! q)) /\
    (forall q info, targets w' !! q = Some info ->
       targets w !! q = Some info \/ written_for P candidates q info).
Proof.
  unfold discover, bind, get_targets.
  destruct (discover_loop_effect P candidates (tracked_hwnds_of (targets w)) w)
    as [tr [w' [Hrun [Hout [_ [Hkeep [Hdom Hnew]]]]]]].
  exists tr, w'. auto.
Qed.

(** ** Steps 1 and 2 *)

Lemma host_with_keys_ok consoles alive procs :
  keys_ok (host_with consoles alive procs).
Proof.
  intros t. cbn. split; [apply NoDup_fst_map_to_list |].
  intros pid. rewrite <- list_elem_of_In, list_elem_of_fmap. split.
  - intros [[p i] [-> Hin]]. apply elem_of_map_to_list in Hin. now exists i.
  - intros [i Hi]. exists (pid, i). split; [reflexivity |].
    now apply elem_of_map_to_list.
Qed.

Lemma put_targets_after t w : put_targets t w = (Return tt, after w [] t).
Proof. unfold put_targets, after. now rewrite app_nil_r. Qed.

Lemma del_targets_run pids : forall w,
  NoDup pids ->
  (forall pid, In pid pids -> is_Some (targets w !! pid)) ->
  exists t', del_targets pids w = (Return tt, after w [] t') /\
    forall q, t' !! q = if decide (q ∈ pids) then None else targets w !! q.
Proof.
  induction pids as [|pid rest IH]; intros w Hnd Hin.
  - exists (targets w). cbn. rewrite after_id. split; [reflexivity |].
    intros q. destruct (decide (q ∈ [])) as [Hq |]; [| reflexivity].
    now apply elem_of_nil in Hq.
  - apply NoDup_cons in Hnd as [Hnotin Hnd].
    destruct (Hin pid (or_introl eq_refl)) as [i Hi].
    cbn [del_targets]. unfold bind at 1. unfold del_target, bind, get_targets.
    rewrite Hi, put_targets_after.
    destruct (IH (after w [] (delete pid (targets w))) Hnd) as [t' [Hrun Hlook]].
    { intros q Hq. cbn. rewrite lookup_delete_ne.
      - apply Hin. now right.
      - intros ->. apply Hnotin. now apply list_elem_of_In. }
    exists t'. rewrite Hrun, after_after. split; [reflexivity |].
    intros q. rewrite Hlook. cbn [targets after].
    destruct (decide (q ∈ rest)) as [Hr | Hr];
      destruct (decide (q ∈ pid :: rest)) as [Hc | Hc]; try reflexivity.
    + exfalso. apply Hc. apply elem_of_cons. now right.
    + apply elem_of_cons in Hc as [-> | Hc]; [apply lookup_delete_eq | contradiction].
    + rewrite lookup_delete_ne; [reflexivity |].
      intros ->. apply Hc. apply elem_of_cons. now left.
Qed.

Lemma prune_dead_run H w :
  keys_ok H ->
  exists t', prune_dead H w = (Return (dead_pids_of H (targets w)), after w [] t') /\
    forall q, t' !! q = if pid_exists H q then targets w !! q else None.
Proof.
  intros Hkeys. destruct (Hkeys (targets w)) as [Hnd Hspec].
  unfold prune_dead, bind, get_targets.
  destruct (del_targets_run (dead_pids_of H (targets w)) w) as [t' [Hrun Hlook]].
  - unfold dead_pids_of. apply NoDup_ListNoDup, List.NoDup_filter.
    now apply NoDup_ListNoDup.
  - intros pid Hin. apply filter_In in Hin as [Hin _]. now apply Hspec.
  - exists t'. rewrite Hrun. split; [reflexivity |].
    intros q. rewrite Hlook.
    destruct (decide (q ∈ dead_pids_of H (targets w))) as [Hd | Hd].
    + apply list_elem_of_In, filter_In in Hd as [_ Hd].
      apply negb_true_iff in Hd. now rewrite Hd.
    + destruct (pid_exists H q) eqn:Hex; [reflexivity |].
      destruct (targets w !! q) as [i|] eqn:Hq; [| reflexivity].
      exfalso. apply Hd. apply list_elem_of_In, filter_In. split.
      * apply Hspec. now exists i.
      * now rewrite Hex.
Qed.

(** X10: cleaning up never raises and writes nothing besides its "died"
    lines; it returns the tracked pids whose process is gone, and afterwards
    a target is tracked exactly when it was tracked and its process exists,
    with its entry unchanged. *)
Theorem prune_dead_spec (H : host) (w : world) :
  keys_ok H ->
  exists w', prune_dead H w = (Return (dead_pids_of H (targets w)), w') /\
    console w' = console w /\ output w' = output w /\
    (forall q, In q (dead_pids_of H (targets w)) <->
               is_Some (targets w !! q) /\ pid_exists H q = false) /\
    (forall q, targets w' !! q =
               if pid_exists H q then targets w !! q else None).
Proof.
  intros Hkeys. destruct (prune_dead_run H w Hkeys) as [t' [Hrun Hlook]].
  exists (after w [] t'). split; [exact Hrun |].
  split; [reflexivity |]. split; [cbn; apply app_nil_r |].
  split; [| exact Hlook].
  intros q. unfold dead_pids_of. rewrite filter_In, negb_true_iff.
  destruct (Hkeys (targets w)) as [_ Hspec]. now rewrite Hspec.
Qed.

Lemma prune_dead_spec_witness :
  exists w',
    prune_dead (host_with [] (fun pid => (pid =? 8)%N) [])
      (world0 {[ 7%N := {| state := Ready; hwnd := Some 55 |};
                 8%N := {| state := Working; hwnd := Some 66 |} ]}) =
      (Return (dead_pids_of (host_with [] (fun pid => (pid =? 8)%N) [])
                 {[ 7%N := {| state := Ready; hwnd := Some 55 |};
                    8%N := {| state := Working; hwnd := Some 66 |} ]}), w') /\
    targets w' !! 7%N = None /\
    targets w' !! 8%N = Some {| state := Working; hwnd := Some 66 |}.
Proof.
  destruct (prune_dead_spec (host_with [] (fun pid => (pid =? 8)%N) [])
              (world0 {[ 7%N := {| state := Ready; hwnd := Some 55 |};
                         8%N := {| state := Working; hwnd := Some 66 |} ]})
              (host_with_keys_ok _ _ _))
    as [w' [Hrun [_ [_ [_ Hlook]]]]].
  exists w'. split; [exact Hrun |]. split; [apply (Hlook 7%N) | apply (Hlook 8%N)].
Defined.

Lemma find_candidates_In (P : platform) (procs : list (N * option str))
    (t : gmap N target) (pid : N) :
  In pid (find_candidates P procs t) <->
  exists name, In (pid, Some name) procs /\
               In (str_lower P name) shell_names /\
               t !! pid = None.
Proof.
  induction procs as [|[p [name|]] rest IH]; cbn [find_candidates].
  - split; [intros [] | intros [name [[] _]]].
  - destruct (bool_decide (str_lower P name ∈ shell_names)) eqn:Hn.
    + apply bool_decide_eq_true in Hn. apply list_elem_of_In in Hn.
      destruct (bool_decide (t !! p = None)) eqn:Ht.
      * apply bool_decide_eq_true in Ht. cbn [In]. rewrite IH. split.
        -- intros [<- | [n [Hin Hrest]]]; [exists name | exists n]; cbn; tauto.
        -- intros [n [[Heq | Hin] Hrest]].
           ++ injection Heq as -> _. now left.
           ++ right. exists n. tauto.
      * apply bool_decide_eq_false in Ht. rewrite IH. split.
        -- intros [n [Hin Hrest]]. exists n. cbn. tauto.
        -- intros [n [[Heq | Hin] [Hn' Ht']]].
           ++ injection Heq as -> _. contradiction.
           ++ exists n. tauto.
    + apply bool_decide_eq_false in Hn. rewrite list_elem_of_In in Hn.
      rewrite IH. split.
      * intros [n [Hin Hrest]]. exists n. cbn. tauto.
      * intros [n [[Heq | Hin] [Hn' Ht']]].
        -- injection Heq as -> <-. contradiction.
        -- exists n. tauto.
  - rewrite IH. split.
    + intros [n [Hin Hrest]]. exists n. cbn. tauto.
    + intros [n [[Heq | Hin] Hrest]]; [discriminate | exists n; tauto].
Qed.

(** X11: the candidates of a pass are exactly the listed processes that
    have a name, whose lower-cased name is one of the four executables, and
    whose pid is not tracked; a process without a name is skipped. *)
Theorem find_candidates_spec (P : platform) (procs : list (N * option str))
    (t : gmap N target) (pid : N) :
  In pid (find_candidates P procs t) <->
  exists name, In (pid, Some name) procs /\
               In (str_lower P name) shell_names /\
               t !! pid = None.
Proof. apply find_candidates_In. Qed.

(** ** The loops and one pass *)

(** The monitoring loop returns; it keeps every stored handle and never
    puts a target back to Unknown. *)
Lemma monitor_loop_effect P pids : forall w,
  exists w', monitor_loop P pids w = (Return tt, w') /\
    (forall q, hwnd <$> (targets w' !! q) = hwnd <$> (targets w !! q)) /\
    (forall q i i', targets w !! q = Some i -> targets w' !! q = Some i' ->
       state i' = Unknown -> state i = Unknown) /\
    (forall q, ~ In q pids -> targets w' !! q = targets w !! q).
Proof.
  induction pids as [|pid rest IH]; intros w.
  - exists w. cbn. repeat split; auto. intros q i i' -> Heq. now injection Heq as <-.
  - cbn [monitor_loop]. unfold bind.
    destruct (monitor_target_effect P pid w) as [w1 [Hrun1 Hcase]].
    rewrite Hrun1.
    destruct (IH w1) as [w2 [Hrun2 [Hh2 [Hu2 Hf2]]]].
    exists w2. split; [exact Hrun2 |].
    assert (Hstep : forall q,
              (targets w1 !! q = targets w !! q) \/
              (q = pid /\ exists info s, targets w !! q = Some info /\
                 targets w1 !! q = Some {| state := s; hwnd := hwnd info |} /\
                 s <> Unknown)).
    { intros q. destruct Hcase as [-> | [info [s [Hinfo [-> [Hs _]]]]]]; [now left |].
      destruct (decide (q = pid)) as [-> | Hne].
      - right. split; [reflexivity |]. exists info, s.
        now rewrite lookup_insert_eq.
      - left. now rewrite lookup_insert_ne by congruence. }
    split; [| split].
    + intros q. rewrite Hh2.
      destruct (Hstep q) as [-> | [_ [info [s [-> [-> _]]]]]]; reflexivity.
    + intros q i i' Hq Hq' Hst.
      destruct (Hstep q) as [Heq | [_ [info [s [Hinfo [H1 Hs]]]]]].
      * apply (Hu2 q i i'); [now rewrite Heq | exact Hq' | exact Hst].
      * exfalso. apply Hs.
        now apply (Hu2 q {| state := s; hwnd := hwnd info |} i' H1 Hq' Hst).
    + intros q Hq. rewrite Hf2 by (intros Hin; apply Hq; now right).
      destruct (Hstep q) as [-> | [-> _]]; [reflexivity |].
      exfalso. apply Hq. now left.
Qed.

Lemma handles_unique_ext (t t' : gmap N target) :
  (forall q, hwnd <$> (t' !! q) = hwnd <$> (t !! q)) ->
  handles_unique t -> handles_unique t'.
Proof.
  intros Hext Huniq p q i j Hp Hq Htruthy Heq.
  pose proof (Hext p) as Hep. pose proof (Hext q) as Heq'.
  rewrite Hp in Hep. rewrite Hq in Heq'.
  destruct (t !! p) as [i0|] eqn:Hp0; [| discriminate].
  destruct (t !! q) as [j0|] eqn:Hq0; [| discriminate].
  cbn in Hep, Heq'. injection Hep as Hep. injection Heq' as Heq'.
  apply (Huniq p q i0 j0 Hp0 Hq0); congruence.
Qed.

(** Steps 1 to 4 in a row. *)
Lemma pass_body_effect H w :
  keys_ok H ->
  exists w', pass_body H w = (Return (dead_pids_of H (targets w)), w') /\
    (handles_unique (targets w) -> handles_unique (targets w')) /\
    (forall pid info, targets w !! pid = Some info -> pid_exists H pid = true ->
       exists info', targets w' !! pid = Some info' /\
                     hwnd info' = hwnd info /\
                     (state info' = Unknown -> state info = Unknown)) /\
    (forall pid, pid_exists H pid = false ->
       (forall name, ~ In (pid, name) (process_iter H)) ->
       targets w' !! pid = None).
Proof.
  intros Hkeys.
  destruct (prune_dead_run H w Hkeys) as [t1 [Hrun1 Hlook1]].
  unfold pass_body, bind at 1. rewrite Hrun1.
  unfold bind at 1, get_targets at 1. cbn [targets after].
  unfold bind at 1.
  set (P := host_platform H).
  set (candidates := find_candidates P (process_iter H) t1).
  destruct (discover_effect P candidates (after w [] t1))
    as [tr [w2 [Hrun2 [_ [Hinv2 [Hkeep2 [_ Hnew2]]]]]]].
  rewrite Hrun2. unfold bind at 1, get_targets at 1. unfold bind at 1.
  destruct (monitor_loop_effect P (dict_keys H (targets w2)) w2)
    as [w3 [Hrun3 [Hh3 [Hu3 _]]]].
  rewrite Hrun3. exists w3. split; [reflexivity |].
  cbn [targets after] in Hinv2, Hkeep2, Hnew2.
  split; [| split].
  - intros Huniq. apply (handles_unique_ext (targets w2)); [exact Hh3 |].
    apply Hinv2. intros p q i j Hp Hq. rewrite Hlook1 in Hp, Hq.
    destruct (pid_exists H p); [| discriminate].
    destruct (pid_exists H q); [| discriminate].
    now apply Huniq.
  - intros pid info Hinfo Hex.
    assert (H1 : t1 !! pid = Some info) by now rewrite Hlook1, Hex.
    assert (H2 : targets w2 !! pid = Some info).
    { apply Hkeep2; [exact H1 |]. left. intros Hin.
      apply find_candidates_In in Hin as [name [_ [_ Hnone]]]. congruence. }
    pose proof (Hh3 pid) as Hh. rewrite H2 in Hh.
    destruct (targets w3 !! pid) as [info'|] eqn:H3; [| discriminate].
    injection Hh as Hh. exists info'. split; [reflexivity |]. split; [exact Hh |].
    now apply (Hu3 pid info info').
  - intros pid Hex Hnot.
    assert (H2 : targets w2 !! pid = None).
    { destruct (targets w2 !! pid) as [info|] eqn:H2; [| reflexivity].
      destruct (Hnew2 pid info H2) as [Hold | [Hin _]].
      - rewrite Hlook1, Hex in Hold. discriminate.
      - apply find_candidates_In in Hin as [name [Hin _]].
        exfalso. now apply (Hnot (Some name)). }
    pose proof (Hh3 pid) as Hh. rewrite H2 in Hh.
    destruct (targets w3 !! pid); [discriminate | reflexivity].
Qed.

Lemma poll_pass_snd H w :
  snd (poll_pass H w) = snd (pass_body H w).
Proof. unfold poll_pass. now destruct (pass_body H w) as [[r | e] w']. Qed.

(** X12: a pass isolates every failure it meets: whatever the host shows,
    steps 1 to 4 run to their end and the "Loop Error" line of the outer
    [except] is never written. *)
Theorem poll_pass_no_loop_error (H : host) (w : world) :
  keys_ok H ->
  (exists w', pass_body H w = (Return (dead_pids_of H (targets w)), w')) /\
  (forall e, ~ In (LoopError e) (fst (poll_pass H w))).
Proof.
  intros Hkeys. destruct (pass_body_effect H w Hkeys) as [w' [Hrun _]].
  split; [now exists w' |].
  intros e. unfold poll_pass. rewrite Hrun. cbn [fst].
  rewrite in_app_iff, !in_map_iff.
  intros [[pid [Hpid _]] | [ev [Hev _]]]; discriminate.
Qed.

Lemma poll_pass_no_loop_error_witness :
  (exists w', pass_body shared_console_host (world0 ∅) =
                (Return (dead_pids_of shared_console_host (targets (world0 ∅))), w')) /\
  (forall e, ~ In (LoopError e) (fst (poll_pass shared_console_host (world0 ∅)))).
Proof.
  apply (poll_pass_no_loop_error shared_console_host (world0 ∅)).
  apply host_with_keys_ok.
Defined.

(** X13: a pass keeps every target whose process exists, with the handle
    it was discovered with, and never puts it back to Unknown; and a target
    whose process is gone and is no longer listed is not tracked after the
    pass. *)
Theorem poll_pass_tracks_live_targets (H : host) (w : world) :
  keys_ok H ->
  (forall pid info, targets w !! pid = Some info -> pid_exists H pid = true ->
     exists info', targets (snd (poll_pass H w)) !! pid = Some info' /\
                   hwnd info' = hwnd info /\
                   (state info' = Unknown -> state info = Unknown)) /\
  (forall pid, pid_exists H pid = false ->
     (forall name, ~ In (pid, name) (process_iter H)) ->
     targets (snd (poll_pass H w)) !! pid = None).
Proof.
  intros Hkeys. rewrite poll_pass_snd.
  destruct (pass_body_effect H w Hkeys) as [w' [Hrun [_ [Hlive Hdead]]]].
  rewrite Hrun. cbn [snd]. split; assumption.
Qed.

Lemma poll_pass_tracks_live_targets_witness :
  targets (snd (poll_pass (host_with [] (fun pid => (pid =? 8)%N) [])
                  (world0 {[ 7%N := {| state := Ready; hwnd := Some 55 |};
                             8%N := {| state := Working; hwnd := Some 66 |} ]})))
    !! 7%N = None.
Proof.
  apply (proj2 (poll_pass_tracks_live_targets
                  (host_with [] (fun pid => (pid =? 8)%N) [])
                  (world0 {[ 7%N := {| state := Ready; hwnd := Some 55 |};
                             8%N := {| state := Working; hwnd := Some 66 |} ]})
                  (host_with_keys_ok _ _ _)) 7%N).
  - reflexivity.
  - intros name [].
Defined.

(** X14: at most one target per console window.  Starting from the empty
    [targets] of the script, after any number of passes, whatever the hosts
    showed during them, no two targets share a present console handle. *)
Theorem run_passes_handles_unique (hosts : list host) (w : world) :
  Forall keys_ok hosts ->
  targets w = ∅ ->
  handles_unique (targets (run_passes hosts w)).
Proof.
  intros Hhosts Hempty.
  assert (Huniq : handles_unique (targets w)).
  { intros p q i j Hp. rewrite Hempty, lookup_empty in Hp. discriminate. }
  clear Hempty. revert w Huniq.
  induction Hhosts as [|H rest Hkeys _ IH]; intros w Huniq; [exact Huniq |].
  cbn [run_passes]. apply IH. rewrite poll_pass_snd.
  destruct (pass_body_effect H w Hkeys) as [w' [Hrun [Hinv _]]].
  rewrite Hrun. now apply Hinv.
Qed.

Lemma run_passes_handles_unique_witness :
  handles_unique
    (targets (run_passes [shared_console_host; shared_console_host] (world0 ∅))).
Proof.
  apply (run_passes_handles_unique [shared_console_host; shared_console_host]
           (world0 ∅)).
  - repeat constructor; apply host_with_keys_ok.
  - reflexivity.
Defined.

Lemma discover_keeps_handles_unique_witness :
  handles_unique
    (targets (snd (discover (platform_with [(7%N, wide_console); (8%N, wide_console)])
                     [7%N; 8%N] (world0 ∅)))).
Proof.
  apply (discover_keeps_handles_unique
           (platform_with [(7%N, wide_console); (8%N, wide_console)])
           [7%N; 8%N] (world0 ∅)).
  intros p q i j Hp. cbn in Hp. rewrite lookup_empty in Hp. discriminate.
Defined.

(** ** A console window freed and claimed in one pass *)


Section Claiming.

Variables (P : platform) (q : N) (ci : console_info).
Hypothesis Hself : q <> getpid P.
Hypothesis Hconsole : console_of P q = Some ci.
Hypothesis Hwidth : zero_width ci = false.
Hypothesis Hmatch : title_matches P (con_title ci) = true.




End Claiming.



(** ** Polling an unchanged console twice *)



